(** * WHOISDataParser: a shallow embedding of [parser.py]

    The development follows [parse_whois_json] and its two local helpers,
    [_find_key_recursively] and [_get_value].  Python objects reachable from a
    decoded JSON document are modelled by the inductive type [value]; a Python
    [dict] is an association list in insertion order; Python's [None] is the
    constructor [VNone], which the code uses both for JSON [null] and for
    "nothing found". *)

From Stdlib Require Import Bool List ZArith Lia Ascii String PrimFloat.
Import ListNotations.
Local Open Scope string_scope.
Local Open Scope list_scope.

(** ** Characters and strings

    A Python [str] is modelled by a Rocq [string] whose characters are read as
    the code points 0..255.  On that range [str.isspace] (which is also the
    class [\s] of [re] and the set removed by [str.strip]) and [str.lower]
    are the two functions below. *)

Module PyStr.

Definition code (c : ascii) : N := N_of_ascii c.

(** [c.isspace()] for a code point below 256. *)
Definition isspace (c : ascii) : bool :=
  let n := code c in
  ((9 <=? n) && (n <=? 13) || (28 <=? n) && (n <=? 32)
   || (n =? 133) || (n =? 160))%N.

(** [c.lower()] for a code point below 256. *)
Definition lower_char (c : ascii) : ascii :=
  let n := code c in
  if ((65 <=? n) && (n <=? 90)
      || (192 <=? n) && (n <=? 222) && negb (n =? 215))%N
  then ascii_of_N (n + 32) else c.

(** [s.lower()] *)
Fixpoint lower (s : string) : string :=
  match s with
  | EmptyString => EmptyString
  | String c r => String (lower_char c) (lower r)
  end.

Definition is_empty (s : string) : bool :=
  match s with EmptyString => true | String _ _ => false end.

(** [s.lstrip()] *)
Fixpoint lstrip (s : string) : string :=
  match s with
  | EmptyString => EmptyString
  | String c r => if isspace c then lstrip r else s
  end.

(** [s.rstrip()] *)
Fixpoint rstrip (s : string) : string :=
  match s with
  | EmptyString => EmptyString
  | String c r =>
      let r' := rstrip r in
      if isspace c && is_empty r' then EmptyString else String c r'
  end.

(** [s.strip()] *)
Definition strip (s : string) : string := rstrip (lstrip s).

(** The character class [[,\s\n]] of the nameserver delimiter pattern. *)
Definition is_delim (c : ascii) : bool :=
  (code c =? 44)%N || isspace c || (code c =? 10)%N.

(** [re.split(r'[,\s\n]+', s)]: the pieces of [s] between maximal runs of
    delimiters; a run at either end of [s] leaves an empty piece there. *)
Fixpoint re_split (s : string) : list string :=
  match s with
  | EmptyString => [EmptyString]
  | String c r =>
      if is_delim c then
        match r with
        | String c' _ => if is_delim c' then re_split r
                         else EmptyString :: re_split r
        | EmptyString => EmptyString :: re_split r
        end
      else
        match re_split r with
        | piece :: pieces => String c piece :: pieces
        | [] => [String c EmptyString]
        end
  end.

(** [sep.join(l)] *)
Fixpoint join (sep : string) (l : list string) : string :=
  match l with
  | [] => EmptyString
  | [x] => x
  | x :: r => x ++ sep ++ join sep r
  end.

End PyStr.

(** ** Python values *)

Unset Elimination Schemes.
Inductive value : Type :=
  | VNone  : value
  | VBool  : bool -> value
  | VInt   : Z -> value
  | VFloat : float -> value
  | VStr   : string -> value
  | VList  : list value -> value
  | VDict  : list (string * value) -> value.
Set Elimination Schemes.

(** A [dict]: the items in insertion order. *)
Definition dict := list (string * value).

Section ValueInduction.
Variable P : value -> Prop.
Hypothesis HNone  : P VNone.
Hypothesis HBool  : forall b, P (VBool b).
Hypothesis HInt   : forall z, P (VInt z).
Hypothesis HFloat : forall f, P (VFloat f).
Hypothesis HStr   : forall s, P (VStr s).
Hypothesis HList  : forall l, Forall P l -> P (VList l).
Hypothesis HDict  : forall m : dict, Forall (fun kv => P (snd kv)) m -> P (VDict m).

Fixpoint value_ind (v : value) : P v :=
  match v with
  | VNone => HNone
  | VBool b => HBool b
  | VInt z => HInt z
  | VFloat f => HFloat f
  | VStr s => HStr s
  | VList l =>
      HList l (list_ind (Forall P) (Forall_nil P)
                 (fun x r IH => Forall_cons x (value_ind x) IH) l)
  | VDict m =>
      HDict m (list_ind (Forall (fun kv => P (snd kv))) (Forall_nil _)
                 (fun kv r IH =>
                    Forall_cons kv
                      (match kv as p return P (snd p) with
                       | (_, x) => value_ind x
                       end) IH) m)
  end.
End ValueInduction.

Module Py.

(** [x is None] *)
Definition is_none (v : value) : bool :=
  match v with VNone => true | _ => false end.

(** [bool(x)]: Python truthiness. *)
Definition truthy (v : value) : bool :=
  match v with
  | VNone => false
  | VBool b => b
  | VInt z => negb (z =? 0)%Z
  | VFloat f => negb (PrimFloat.eqb f PrimFloat.zero)
  | VStr s => negb (PyStr.is_empty s)
  | VList l => match l with [] => false | _ => true end
  | VDict m => match m with [] => false | _ => true end
  end.

(** [a or b] *)
Definition or_ (a b : value) : value := if truthy a then a else b.

(** [key in d] together with [d[key]]. *)
Fixpoint lookup (d : dict) (key : string) : option value :=
  match d with
  | [] => None
  | (k, v) :: r => if String.eqb k key then Some v else lookup r key
  end.

(** [d.get(key)] *)
Definition get (d : dict) (key : string) : value :=
  match lookup d key with Some v => v | None => VNone end.

(** [d.values()] *)
Definition values (d : dict) : list value := map snd d.

(** [d.keys()] *)
Definition keys (d : dict) : list string := map fst d.

(** [d[key] = v]: an existing key keeps its position, a new one is appended. *)
Fixpoint setitem (d : dict) (key : string) (v : value) : dict :=
  match d with
  | [] => [(key, v)]
  | (k, x) :: r =>
      if String.eqb k key then (k, v) :: r else (k, x) :: setitem r key v
  end.

End Py.

(** ** The parser *)

(** [_find_key_recursively(data, target_key)] *)
Fixpoint _find_key_recursively (data : value) (target_key : string) : value :=
  match data with
  | VDict d =>
      match Py.lookup d target_key with
      | Some v => v
      | None =>
          (fix for_values (items : dict) : value :=
             match items with
             | [] => VNone
             | (_, value) :: rest =>
                 let result := _find_key_recursively value target_key in
                 if Py.is_none result then for_values rest else result
             end) d
      end
  | VList l =>
      (fix for_items (items : list value) : value :=
         match items with
         | [] => VNone
         | item :: rest =>
             let result := _find_key_recursively item target_key in
             if Py.is_none result then for_items rest else result
         end) l
  | _ => VNone
  end.

(** [_get_value], whose variadic [keys] become a list and whose captured
    [whois_data] becomes an argument. *)
Fixpoint _get_value (whois_data : value) (keys : list string) : value :=
  match keys with
  | [] => VNone
  | key :: rest =>
      let value := _find_key_recursively whois_data key in
      if Py.is_none value then _get_value whois_data rest else value
  end.

(** The registrant branch (lines 70-76): the value stored under
    ["registrant"], from the resolved [registrant_info]. *)
Definition registrant_name (registrant_info : value) : value :=
  match registrant_info with
  | VDict d => Py.or_ (Py.get d "name") (Py.get d "organization")
  | VStr s => VStr s
  | _ => VNone
  end.

(** The worklist built at lines 92-102. *)
Definition items_to_process (raw_nameservers : value) : list value :=
  match raw_nameservers with
  | VStr s => map VStr (PyStr.re_split s)
  | VList l => l
  | VDict d =>
      let hostnames := Py.get d "hostNames" in
      if Py.truthy hostnames
      then match hostnames with VList l => l | _ => [] end
      else []
  | _ => []
  end.

(** One turn of the loop at lines 105-114: [nameserver_list] before and
    after the turn for [item]. *)
Definition process_item (nameserver_list : list string) (item : value)
  : list string :=
  if negb (Py.truthy item) then nameserver_list
  else
    match item with
    | VStr s => nameserver_list ++ [PyStr.strip (PyStr.lower s)]
    | VDict d =>
        let name := Py.or_ (Py.get d "name") (Py.get d "hostname") in
        if Py.truthy name
        then match name with
             | VStr n => nameserver_list ++ [PyStr.strip (PyStr.lower n)]
             | _ => nameserver_list
             end
        else nameserver_list
    | _ => nameserver_list
    end.

(** [nameserver_list] when line 116 is reached. *)
Definition nameserver_list (raw_nameservers : value) : list string :=
  if Py.truthy raw_nameservers
  then fold_left process_item (items_to_process raw_nameservers) []
  else [].

(** [x in seen] *)
Definition in_seen (x : string) (seen : list string) : bool :=
  existsb (String.eqb x) seen.

(** The comprehension of line 119, with the set [seen] threaded through:
    [x for x in l if x and not (x in seen or seen.add(x))]. *)
Fixpoint unique_from (seen : list string) (l : list string) : list string :=
  match l with
  | [] => []
  | x :: r =>
      if negb (PyStr.is_empty x) && negb (in_seen x seen)
      then x :: unique_from (x :: seen) r
      else unique_from seen r
  end.

(** [unique_ns] of line 119. *)
Definition unique_ns (raw_nameservers : value) : list string :=
  unique_from [] (nameserver_list raw_nameservers).

(** The value stored under ["nameservers"] (lines 117-122). *)
Definition nameservers_field (raw_nameservers : value) : value :=
  match nameserver_list raw_nameservers with
  | [] => VNone
  | _ :: _ => VStr (PyStr.join ", " (unique_ns raw_nameservers))
  end.

(** The alias lists, in the order of the calls to [_get_value]. *)
Definition CREATED_KEYS := ["creation_date"; "creationDate"; "created_date"; "created"].
Definition UPDATED_KEYS := ["updated_date"; "updatedDate"; "last_updated"; "updated"].
Definition EXPIRES_KEYS :=
  ["expiration_date"; "expirationDate"; "expires_date"; "expires"; "expiry_date"].
Definition REGISTRAR_KEYS := ["registrar"; "registrar_name"; "registrarName"].
Definition WHOIS_SERVER_KEYS := ["whois_server"; "whoisServer"].
Definition IANA_KEYS := ["registrar_iana_id"; "registrarIANAID"; "ianaid"].
Definition REGISTRANT_KEYS := ["registrant"; "registrant_name"; "registrantName"].
Definition COUNTRY_KEYS := ["registrant_country"; "country"].
Definition COUNTRY_CODE_KEYS := ["registrant_country_code"; "country_code"; "countryCode"].
Definition NAMESERVER_KEYS :=
  ["name_servers"; "nameservers"; "nserver"; "nameServers"; "nameserver_info"].

(** [parsed_data] as initialised at lines 20-31. *)
Definition initial_parsed_data : dict :=
  [ ("createdDate", VNone); ("updatedDate", VNone); ("expiresDate", VNone);
    ("registrarName", VNone); ("whoisServer", VNone); ("registrant", VNone);
    ("country", VNone); ("countryCode", VNone); ("registrarIANAID", VNone);
    ("nameservers", VNone) ].

(** [parse_whois_json(whois_data)]: the assignments to [parsed_data] in the
    order of the source. *)
Definition parse_whois_json (whois_data : value) : dict :=
  let parsed_data := initial_parsed_data in
  let parsed_data :=
    Py.setitem parsed_data "createdDate" (_get_value whois_data CREATED_KEYS) in
  let parsed_data :=
    Py.setitem parsed_data "updatedDate" (_get_value whois_data UPDATED_KEYS) in
  let parsed_data :=
    Py.setitem parsed_data "expiresDate" (_get_value whois_data EXPIRES_KEYS) in
  let parsed_data :=
    Py.setitem parsed_data "registrarName" (_get_value whois_data REGISTRAR_KEYS) in
  let parsed_data :=
    Py.setitem parsed_data "whoisServer" (_get_value whois_data WHOIS_SERVER_KEYS) in
  let parsed_data :=
    Py.setitem parsed_data "registrarIANAID" (_get_value whois_data IANA_KEYS) in
  let registrant_info := _get_value whois_data REGISTRANT_KEYS in
  let parsed_data :=
    Py.setitem parsed_data "registrant" (registrant_name registrant_info) in
  let parsed_data :=
    Py.setitem parsed_data "country" (_get_value whois_data COUNTRY_KEYS) in
  let country_code := _get_value whois_data COUNTRY_CODE_KEYS in
  let parsed_data := Py.setitem parsed_data "countryCode" country_code in
  let raw_nameservers := _get_value whois_data NAMESERVER_KEYS in
  Py.setitem parsed_data "nameservers" (nameservers_field raw_nameservers).

(** The value stored under ["nameservers"] for a whole document. *)
Definition nameservers (whois_data : value) : value :=
  nameservers_field (_get_value whois_data NAMESERVER_KEYS).

(** Every key [_get_value] is called with, in the order of the calls. *)
Definition ALIAS_KEYS : list string :=
  CREATED_KEYS ++ UPDATED_KEYS ++ EXPIRES_KEYS ++ REGISTRAR_KEYS
    ++ WHOIS_SERVER_KEYS ++ IANA_KEYS ++ REGISTRANT_KEYS ++ COUNTRY_KEYS
    ++ COUNTRY_CODE_KEYS ++ NAMESERVER_KEYS.

(** Every key the parser ever looks up: the aliases and the four keys read
    with [.get] inside a resolved registrant or nameserver value. *)
Definition KNOWN_KEYS : list string :=
  "name" :: "organization" :: "hostname" :: "hostNames" :: ALIAS_KEYS.

(** ** Reference notions

    The notions the properties below are stated against: the order in which
    the matches of a key are met in a tree, the first result that is not
    [None], stable deduplication, and the renaming of a key. *)

Module Spec.

(** All values bound to [k] in [t], in document order: the items of a dict
    in insertion order, each item's own binding before what lies below it. *)
Fixpoint document_order (t : value) (k : string) : list value :=
  match t with
  | VDict d =>
      flat_map (fun kv => (if String.eqb (fst kv) k then [snd kv] else [])
                            ++ document_order (snd kv) k) d
  | VList l => flat_map (fun v => document_order v k) l
  | _ => []
  end.

(** All values bound to [k] in [t], in pre-order on the nodes: a dict's own
    binding of [k] first, then what lies below its values, in insertion
    order. *)
Fixpoint node_order (t : value) (k : string) : list value :=
  match t with
  | VDict d =>
      (match Py.lookup d k with Some v => [v] | None => [] end)
        ++ flat_map (fun kv => node_order (snd kv) k) d
  | VList l => flat_map (fun v => node_order v k) l
  | _ => []
  end.

(** The values the search for [k] in [t] comes across, in the order of the
    search: a dict that holds [k] itself shows the bound value and nothing
    below it; any other dict, and a list, show what their values show, in
    insertion order. *)
Fixpoint candidates (t : value) (k : string) : list value :=
  match t with
  | VDict d =>
      match Py.lookup d k with
      | Some v => [v]
      | None => flat_map (fun kv => candidates (snd kv) k) d
      end
  | VList l => flat_map (fun v => candidates v k) l
  | _ => []
  end.

(** The first element of a list of results that is not [None]. *)
Fixpoint first_not_none (l : list value) : value :=
  match l with
  | [] => VNone
  | x :: r => if Py.is_none x then first_not_none r else x
  end.

(** The value of the first match of [k] in document order, [None] when
    there is no match. *)
Definition first_match (t : value) (k : string) : value :=
  hd VNone (document_order t k).

(** Stable deduplication: every string keeps its first occurrence only. *)
Fixpoint dedup (l : list string) : list string :=
  match l with
  | [] => []
  | x :: r => x :: filter (fun y => negb (String.eqb x y)) (dedup r)
  end.

Definition nonempty (s : string) : bool := negb (PyStr.is_empty s).

(** No comma and no whitespace in [s]. *)
Fixpoint delimiter_free (s : string) : bool :=
  match s with
  | EmptyString => true
  | String c r => negb (PyStr.is_delim c) && delimiter_free r
  end.

(** A token: not empty, no delimiter. *)
Definition token (s : string) : bool := nonempty s && delimiter_free s.

(** The candidate worklist of a resolved nameserver value. *)
Definition worklist (raw : value) : list value :=
  match raw with
  | VStr s => map VStr (PyStr.re_split s)
  | VList l => l
  | VDict d => match Py.lookup d "hostNames" with
               | Some (VList l) => l
               | _ => []
               end
  | _ => []
  end.

(** The hostname a candidate contributes, if any: a non-empty string
    itself, or the [name], else [hostname], string of a map. *)
Definition candidate (item : value) : list string :=
  match item with
  | VStr EmptyString => []
  | VStr s => [PyStr.strip (PyStr.lower s)]
  | VDict d =>
      match Py.or_ (Py.get d "name") (Py.get d "hostname") with
      | VStr EmptyString => []
      | VStr n => [PyStr.strip (PyStr.lower n)]
      | _ => []
      end
  | _ => []
  end.

(** The hostnames collected from a resolved value, before deduplication. *)
Definition collected (raw : value) : list string :=
  flat_map candidate (worklist raw).

(** The nameserver field as the specification words it: deduplicate the
    collected hostnames, absent when nothing is left, else joined. *)
Definition nameservers_as_specified (raw : value) : value :=
  match dedup (collected raw) with
  | [] => VNone
  | l => VStr (PyStr.join ", " l)
  end.

(** The registrant as the specification words it: [name] when usable, else
    [organization] when usable, else absent. *)
Definition registrant_as_specified (info : value) : value :=
  match info with
  | VDict d =>
      if Py.truthy (Py.get d "name") then Py.get d "name"
      else if Py.truthy (Py.get d "organization") then Py.get d "organization"
      else VNone
  | VStr s => VStr s
  | _ => VNone
  end.

(** [relabel old new t]: [t] with every dict key [old] renamed to [new]. *)
Fixpoint relabel (old new : string) (t : value) : value :=
  match t with
  | VDict d =>
      VDict (map (fun kv => (if String.eqb (fst kv) old then new else fst kv,
                             relabel old new (snd kv))) d)
  | VList l => VList (map (relabel old new) l)
  | _ => t
  end.

Definition rename (old new key : string) : string :=
  if String.eqb key old then new else key.

(** The items of a dict after the renaming. *)
Definition relabel_items (old new : string) (d : dict) : dict :=
  map (fun kv => (rename old new (fst kv), relabel old new (snd kv))) d.

(** Two lists of the same length whose elements are related in pairs. *)
Definition pairwise {A B : Type} (R : A -> B -> Prop)
  : list A -> list B -> Prop :=
  fix go (l : list A) (l' : list B) : Prop :=
    match l, l' with
    | [], [] => True
    | x :: r, x' :: r' => R x x' /\ go r r'
    | _, _ => False
    end.

(** No nameserver alias occurs in [v], at any depth. *)
Definition alias_free (v : value) : Prop :=
  Forall (fun key => document_order v key = []) NAMESERVER_KEYS.

(** [same_but_stray t t']: the trees [t] and [t'] have the same shape, keys
    and leaves, except that a value bound to [hostNames] may be replaced by
    any other value, as long as neither holds a nameserver alias. *)
Fixpoint same_but_stray (t t' : value) : Prop :=
  match t with
  | VList l =>
      match t' with
      | VList l' => pairwise (fun x x' => same_but_stray x x') l l'
      | _ => False
      end
  | VDict d =>
      match t' with
      | VDict d' =>
          pairwise
            (fun kv kv' =>
               fst kv = fst kv'
               /\ (same_but_stray (snd kv) (snd kv')
                   \/ (fst kv = "hostNames"
                       /\ alias_free (snd kv) /\ alias_free (snd kv'))))
            d d'
      | _ => False
      end
  | _ => t = t'
  end.

(** The entries of two dicts related by [same_but_stray]. *)
Definition same_items : dict -> dict -> Prop :=
  pairwise
    (fun kv kv' =>
       fst kv = fst kv'
       /\ (same_but_stray (snd kv) (snd kv')
           \/ (fst kv = "hostNames"
               /\ alias_free (snd kv) /\ alias_free (snd kv')))).

(** The finder gives related results for [k] on [t] and any related tree. *)
Definition finds_same (k : string) (t : value) : Prop :=
  forall t', same_but_stray t t' ->
  same_but_stray (_find_key_recursively t k) (_find_key_recursively t' k).

(** A record whose values went through the renaming; its own keys stay. *)
Definition relabel_record (old new : string) (d : dict) : dict :=
  map (fun kv => (fst kv, relabel old new (snd kv))) d.

(** No leading and no trailing whitespace. *)
Definition trimmed (s : string) : Prop := PyStr.strip s = s.

End Spec.

(** What the finder does with the first match of [k] in node order. *)
Definition first_match_found (k : string) (t : value) : Prop :=
  (Spec.node_order t k = [] -> _find_key_recursively t k = VNone)
  /\ (forall v rest, Spec.node_order t k = v :: rest -> v <> VNone ->
      _find_key_recursively t k = v).

(** ** Documents used as examples *)

Module Doc.

(** [{"a": {"k": null}, "b": {"k": "x"}}] *)
Definition null_first : value :=
  VDict [ ("a", VDict [("k", VNone)]); ("b", VDict [("k", VStr "x")]) ].

(** [{"a": {"k": "deep"}, "k": "shallow"}] *)
Definition direct_later : value :=
  VDict [ ("a", VDict [("k", VStr "deep")]); ("k", VStr "shallow") ].

(** [{"a": {"b": {"k": "deep"}}, "c": {"k": "shallow"}}] *)
Definition deep_earlier : value :=
  VDict [ ("a", VDict [("b", VDict [("k", VStr "deep")])]);
          ("c", VDict [("k", VStr "shallow")]) ].

(** [{"k": {"k": "inner"}, "s": {"k": "sibling"}}] *)
Definition direct_hit : dict :=
  [ ("k", VDict [("k", VStr "inner")]); ("s", VDict [("k", VStr "sibling")]) ].

(** [{"a": null, "z": {"a": "v"}, "b": "w"}] *)
Definition null_alias : value :=
  VDict [ ("a", VNone); ("z", VDict [("a", VStr "v")]); ("b", VStr "w") ].

(** [{"registrar": "MarkMonitor Inc.",
      "nameserver_info": {"hostNames": ["NS1.GOOGLE.COM", "NS2.GOOGLE.COM"]},
      "registrant": {"organization": "Google LLC"}}] *)
Definition markmonitor : value :=
  VDict [ ("registrar", VStr "MarkMonitor Inc.");
          ("nameserver_info",
            VDict [("hostNames",
                     VList [VStr "NS1.GOOGLE.COM"; VStr "NS2.GOOGLE.COM"])]);
          ("registrant", VDict [("organization", VStr "Google LLC")]) ].

(** [{"hostNames": ["NS9.X"], "nameservers": ["NS1.X"]}] *)
Definition stray_hostnames : value :=
  VDict [ ("hostNames", VList [VStr "NS9.X"]);
          ("nameservers", VList [VStr "NS1.X"]) ].

(** A registrant whose only entry is an empty [organization]. *)
Definition empty_organization : value :=
  VDict [("organization", VStr EmptyString)].

(** A registrant with an empty [name] and the organization "Google LLC". *)
Definition empty_name : dict :=
  [("name", VStr EmptyString); ("organization", VStr "Google LLC")].

(** [{"domain_name": "google.com", "status": ["ok", "locked"]}] *)
Definition no_alias : value :=
  VDict [ ("domain_name", VStr "google.com");
          ("status", VList [VStr "ok"; VStr "locked"]) ].

(** [{"registrant": {"id": 7}, "registrant_name": "Jane Doe"}] *)
Definition blocked_registrant : value :=
  VDict [ ("registrant", VDict [("id", VInt 7)]);
          ("registrant_name", VStr "Jane Doe") ].

(** [{"name_servers": 5, "nameservers": ["ns1.x"]}] *)
Definition blocked_nameservers : value :=
  VDict [ ("name_servers", VInt 5); ("nameservers", VList [VStr "ns1.x"]) ].

(** [{"hostNames": {"nameservers": ["NS1.X"]}}] *)
Definition alias_below_hostnames : value :=
  VDict [ ("hostNames", VDict [("nameservers", VList [VStr "NS1.X"])]) ].

(** [{"hostNames": []}] *)
Definition emptied_hostnames : value := VDict [ ("hostNames", VList []) ].

(** [{"hostNames": ["NS9.X"],
      "nameserver_info": {"hostNames": ["NS1.X"]}}] *)
Definition stray_beside : value :=
  VDict [ ("hostNames", VList [VStr "NS9.X"]);
          ("nameserver_info", VDict [("hostNames", VList [VStr "NS1.X"])]) ].

(** [{"hostNames": {"glue": ["NS7.X", "NS8.X"]},
      "nameserver_info": {"hostNames": ["NS1.X"]}}] *)
Definition stray_replaced : value :=
  VDict [ ("hostNames", VDict [("glue", VList [VStr "NS7.X"; VStr "NS8.X"])]);
          ("nameserver_info", VDict [("hostNames", VList [VStr "NS1.X"])]) ].

(** [{"registrar": {"id": 292}}] *)
Definition nested_registrar : value :=
  VDict [ ("registrar", VDict [("id", VInt 292)]) ].

End Doc.

(** ** The key finder *)

Lemma app_nil_iff {A : Type} (l l' : list A) :
  l ++ l' = [] <-> l = [] /\ l' = [].
Proof.
  split; [apply app_eq_nil | intros [-> ->]; reflexivity].
Qed.

Section KeyFinder.

Variable k : string.

Lemma find_list (l : list value) :
  _find_key_recursively (VList l) k
  = Spec.first_not_none (map (fun v => _find_key_recursively v k) l).
Proof.
  simpl. induction l as [|x r IH]; simpl; [reflexivity|].
  now rewrite IH.
Qed.

Lemma find_dict_miss (d : dict) :
  Py.lookup d k = None ->
  _find_key_recursively (VDict d) k
  = Spec.first_not_none (map (fun v => _find_key_recursively v k) (Py.values d)).
Proof.
  intros Hmiss. simpl. rewrite Hmiss. clear Hmiss.
  induction d as [|[key v] r IH]; simpl; [reflexivity|].
  now rewrite IH.
Qed.

Lemma find_dict_hit (d : dict) (v : value) :
  Py.lookup d k = Some v -> _find_key_recursively (VDict d) k = v.
Proof. intros Hhit. simpl. now rewrite Hhit. Qed.

Lemma node_order_values (d : dict) :
  flat_map (fun kv => Spec.node_order (snd kv) k) d
  = flat_map (fun v => Spec.node_order v k) (Py.values d).
Proof.
  induction d as [|[key v] r IH]; simpl; [reflexivity|]. now rewrite IH.
Qed.

Lemma first_match_children (l : list value) :
  Forall (first_match_found k) l ->
  let below := flat_map (fun v => Spec.node_order v k) l in
  let found := Spec.first_not_none (map (fun v => _find_key_recursively v k) l) in
  (below = [] -> found = VNone)
  /\ (forall v rest, below = v :: rest -> v <> VNone -> found = v).
Proof.
  induction 1 as [|x r [Hnil Hcons] _ [IHnil IHcons]]; simpl.
  - split; [reflexivity | discriminate].
  - split.
    + intros Happ. apply app_eq_nil in Happ as [Hx Hr].
      rewrite (Hnil Hx). simpl. auto.
    + intros v rest Happ Hv.
      destruct (Spec.node_order x k) as [|w ws] eqn:Hx; simpl in Happ.
      * rewrite (Hnil eq_refl). simpl. eauto.
      * injection Happ as -> _.
        rewrite (Hcons v ws eq_refl Hv).
        destruct v; simpl; congruence.
Qed.

Lemma first_match_found_all (t : value) : first_match_found k t.
Proof.
  induction t as [| | | | |l IH|d IH] using value_ind;
    try (split; [reflexivity | discriminate]).
  - unfold first_match_found. rewrite find_list.
    exact (first_match_children l IH).
  - unfold first_match_found.
    destruct (Py.lookup d k) as [v|] eqn:Hlook.
    + rewrite (find_dict_hit d v Hlook). simpl. rewrite Hlook. simpl.
      split; [discriminate | intros w rest [= -> _] _; reflexivity].
    + rewrite (find_dict_miss d Hlook). simpl. rewrite Hlook. simpl.
      rewrite node_order_values. apply first_match_children.
      unfold Py.values. rewrite Forall_map. exact IH.
Qed.

(** A key that is met in document order is met in node order, and
    conversely. *)
Lemma document_order_nil (t : value) :
  Spec.document_order t k = [] <-> Spec.node_order t k = [].
Proof.
  induction t as [| | | | |l IH|d IH] using value_ind; try (simpl; tauto).
  - simpl. induction IH as [|x r Hx _ IHr]; simpl; [tauto|].
    rewrite !app_nil_iff. tauto.
  - simpl.
    assert (Hbelow :
      flat_map (fun kv => (if String.eqb (fst kv) k then [snd kv] else [])
                            ++ Spec.document_order (snd kv) k) d = []
      <-> Py.lookup d k = None
          /\ flat_map (fun kv => Spec.node_order (snd kv) k) d = []).
    { induction IH as [|[key v] r Hv _ IHr]; simpl; [tauto|].
      simpl in Hv. destruct (String.eqb key k); simpl.
      - split; [discriminate | intros [? _]; discriminate].
      - rewrite !app_nil_iff, Hv, IHr. tauto. }
    rewrite Hbelow. destruct (Py.lookup d k); simpl.
    + split; [intros [? _] | ]; discriminate.
    + tauto.
Qed.

End KeyFinder.

Lemma first_not_none_app (l1 l2 : list value) :
  Spec.first_not_none (l1 ++ l2)
  = if Py.is_none (Spec.first_not_none l1) then Spec.first_not_none l2
    else Spec.first_not_none l1.
Proof.
  induction l1 as [|x r IH]; simpl; [reflexivity|].
  destruct (Py.is_none x) eqn:Hx; [exact IH | now rewrite Hx].
Qed.

Lemma first_not_none_flat_map (f : value -> list value) (l : list value) :
  Spec.first_not_none (flat_map f l)
  = Spec.first_not_none (map (fun v => Spec.first_not_none (f v)) l).
Proof.
  induction l as [|x r IH]; simpl; [reflexivity|].
  now rewrite first_not_none_app, IH.
Qed.

(** The finder returns the first of the values it comes across that is not
    [None]. *)
Lemma find_candidates (t : value) (k : string) :
  _find_key_recursively t k = Spec.first_not_none (Spec.candidates t k).
Proof.
  induction t as [| | | | |l IH|d IH] using value_ind; try reflexivity.
  - rewrite find_list. simpl. rewrite first_not_none_flat_map.
    f_equal. apply map_ext_in. intros v Hv.
    rewrite Forall_forall in IH. now apply IH.
  - destruct (Py.lookup d k) as [v|] eqn:Hlook.
    + rewrite (find_dict_hit k d v Hlook). simpl. rewrite Hlook. simpl.
      now destruct v.
    + rewrite (find_dict_miss k d Hlook). simpl. rewrite Hlook.
      replace (flat_map (fun kv => Spec.candidates (snd kv) k) d)
        with (flat_map (fun v => Spec.candidates v k) (Py.values d))
        by (unfold Py.values; now rewrite flat_map_concat_map, map_map,
              <- flat_map_concat_map).
      rewrite first_not_none_flat_map. f_equal. apply map_ext_in.
      intros v Hv. unfold Py.values in Hv.
      apply in_map_iff in Hv as [kv [<- Hkv]].
      rewrite Forall_forall in IH. now apply IH.
Qed.

Lemma first_not_none_skip (f : value -> value) (pre post : list value) (x : value) :
  Forall (fun v => f v = VNone) pre -> f x <> VNone ->
  Spec.first_not_none (map f (pre ++ x :: post)) = f x.
Proof.
  induction 1 as [|p r Hp _ IH]; intros Hx; simpl.
  - destruct (f x); simpl; congruence.
  - rewrite Hp. simpl. auto.
Qed.

(** C1, as stated, fails in two ways.  In [{"a": {"k": null}, "b": {"k": "x"}}]
    the first match of ["k"] is bound to null, yet the finder goes on and
    returns ["x"].  In [{"a": {"k": "deep"}, "k": "shallow"}] the match below
    the earlier sibling ["a"] comes first in document order, yet the finder
    returns the map's own binding, ["shallow"]. *)
Lemma find_not_first_in_document_order :
  (Spec.first_match Doc.null_first "k" = VNone
   /\ _find_key_recursively Doc.null_first "k" = VStr "x"
   /\ _find_key_recursively Doc.null_first "k"
      <> Spec.first_match Doc.null_first "k")
  /\ (Spec.first_match Doc.direct_later "k" = VStr "deep"
      /\ _find_key_recursively Doc.direct_later "k" = VStr "shallow"
      /\ _find_key_recursively Doc.direct_later "k"
         <> Spec.first_match Doc.direct_later "k").
Proof.
  repeat split; try reflexivity; vm_compute; discriminate.
Qed.

(** C1, amended: the finder looks at a map's own keys before it descends
    into the map's values.  A map that holds the key itself answers with
    the bound value, null included, whatever lies below.  In every case the
    result is the first value the search comes across that is not [None].
    So the finder returns [None] when the key occurs nowhere; it returns
    the first match in that node order whenever the value of that match is
    not null; and among the values of a map that does not hold the key
    itself (or the items of a list), the first one below which the finder
    finds something decides, whatever the depth of that match and whatever
    the later siblings hold. *)
Theorem find_first_match_in_node_order (t : value) (k : string) :
  (Spec.document_order t k = [] -> _find_key_recursively t k = VNone)
  /\ (forall v rest, Spec.node_order t k = v :: rest -> v <> VNone ->
      _find_key_recursively t k = v)
  /\ (forall d v, t = VDict d -> Py.lookup d k = Some v ->
      Spec.node_order t k = v :: flat_map (fun kv => Spec.node_order (snd kv) k) d
      /\ _find_key_recursively t k = v)
  /\ _find_key_recursively t k = Spec.first_not_none (Spec.candidates t k)
  /\ (forall pre key sub post,
        t = VDict (pre ++ (key, sub) :: post) ->
        Py.lookup (pre ++ (key, sub) :: post) k = None ->
        Forall (fun kv => _find_key_recursively (snd kv) k = VNone) pre ->
        _find_key_recursively sub k <> VNone ->
        _find_key_recursively t k = _find_key_recursively sub k)
  /\ (forall pre item post,
        t = VList (pre ++ item :: post) ->
        Forall (fun v => _find_key_recursively v k = VNone) pre ->
        _find_key_recursively item k <> VNone ->
        _find_key_recursively t k = _find_key_recursively item k).
Proof.
  destruct (first_match_found_all k t) as [Hnil Hcons].
  split; [|split; [|split; [|split; [|split]]]].
  - intros Hdoc. apply Hnil. now apply document_order_nil.
  - exact Hcons.
  - intros d v -> Hlook. split.
    + simpl. now rewrite Hlook.
    + now apply find_dict_hit.
  - apply find_candidates.
  - intros pre key sub post -> Hmiss Hpre Hsub.
    rewrite (find_dict_miss k _ Hmiss). unfold Py.values.
    rewrite map_app. simpl.
    apply (first_not_none_skip (fun v => _find_key_recursively v k)); [|exact Hsub].
    rewrite Forall_map. exact Hpre.
  - intros pre item post -> Hpre Hitem.
    rewrite find_list.
    now apply (first_not_none_skip (fun v => _find_key_recursively v k)).
Qed.

(** In [{"a": {"b": {"k": "deep"}}, "c": {"k": "shallow"}}] the match two
    levels below the first sibling is returned. *)
Lemma find_first_match_in_node_order_witness :
  Spec.node_order Doc.deep_earlier "k" = [VStr "deep"; VStr "shallow"]
  /\ VStr "deep" <> VNone
  /\ _find_key_recursively Doc.deep_earlier "k" = VStr "deep".
Proof.
  split; [reflexivity|]. split; [discriminate|].
  apply (proj1 (proj2 (find_first_match_in_node_order Doc.deep_earlier "k"))
           (VStr "deep") [VStr "shallow"]).
  - reflexivity.
  - discriminate.
Defined.

(** C2: a map that holds the target key itself answers with the bound
    value, whatever that value is (null included) and whatever the value
    and the other items contain. *)
Theorem find_direct_hit (d : dict) (k : string) (v : value) :
  Py.lookup d k = Some v -> _find_key_recursively (VDict d) k = v.
Proof. apply find_dict_hit. Qed.

(** In [{"k": {"k": "inner"}, "s": {"k": "sibling"}}] the value bound to
    ["k"] at the top is returned whole. *)
Lemma find_direct_hit_witness :
  Py.lookup Doc.direct_hit "k" = Some (VDict [("k", VStr "inner")])
  /\ _find_key_recursively (VDict Doc.direct_hit) "k"
     = VDict [("k", VStr "inner")].
Proof.
  split; [reflexivity|].
  apply (find_direct_hit Doc.direct_hit "k" (VDict [("k", VStr "inner")])).
  reflexivity.
Defined.

(** ** The alias resolver *)

Lemma get_value_first_not_none (t : value) (keys : list string) :
  _get_value t keys
  = Spec.first_not_none (map (_find_key_recursively t) keys).
Proof.
  induction keys as [|key rest IH]; simpl; [reflexivity|]. now rewrite IH.
Qed.

Lemma first_not_none_nil (l : list value) :
  Spec.first_not_none l = VNone <-> Forall (fun v => v = VNone) l.
Proof.
  induction l as [|x r IH]; simpl.
  - split; auto.
  - destruct x; simpl;
      try (split; [discriminate | intros H; inversion H; discriminate]).
    rewrite IH. split; [auto | intros H; now inversion H].
Qed.

(** C3, as stated, fails on [{"a": null, "z": {"a": "v"}, "b": "w"}]: the
    key ["a"] occurs twice, once with the value ["v"], yet with the aliases
    ["a"], ["b"] the resolver returns ["w"], and with the alias ["a"] alone
    it returns [None]. *)
Lemma get_value_skips_null_alias :
  Spec.document_order Doc.null_alias "a" = [VNone; VStr "v"]
  /\ _get_value Doc.null_alias ["a"; "b"] = VStr "w"
  /\ _get_value Doc.null_alias ["a"] = VNone.
Proof. repeat split. Qed.

(** C3, amended: the resolver returns the first result of the key finder,
    in the order of the aliases, that is not [None].  With the aliases
    [a], [b] it returns the finder's result for [a] whenever that result is
    not [None]; it returns [None] exactly when the finder returns [None] for
    every alias, which is the case when no alias occurs in the tree. *)
Theorem get_value_first_result (t : value) (keys : list string) :
  _get_value t keys
  = Spec.first_not_none (map (_find_key_recursively t) keys)
  /\ (forall a b, _find_key_recursively t a <> VNone ->
      _get_value t [a; b] = _find_key_recursively t a)
  /\ (_get_value t keys = VNone
      <-> Forall (fun key => _find_key_recursively t key = VNone) keys)
  /\ (Forall (fun key => Spec.document_order t key = []) keys ->
      _get_value t keys = VNone).
Proof.
  assert (Hiff : _get_value t keys = VNone
      <-> Forall (fun key => _find_key_recursively t key = VNone) keys).
  { rewrite get_value_first_not_none, first_not_none_nil, Forall_map. tauto. }
  repeat split.
  - apply get_value_first_not_none.
  - intros a b Ha. simpl.
    destruct (_find_key_recursively t a); simpl; congruence.
  - apply Hiff.
  - apply Hiff.
  - intros Hnone. apply Hiff. revert Hnone. apply Forall_impl.
    intros key Hkey.
    now apply (proj1 (first_match_found_all key t)), document_order_nil.
Qed.

(** In the sample document ["registrar"] is found, so that the alias
    ["registrar_name"] is not consulted. *)
Lemma get_value_first_result_witness :
  _find_key_recursively Doc.markmonitor "registrar" <> VNone
  /\ _get_value Doc.markmonitor ["registrar"; "registrar_name"]
     = VStr "MarkMonitor Inc.".
Proof.
  split; [vm_compute; discriminate|].
  apply (proj1 (proj2 (get_value_first_result Doc.markmonitor [])) "registrar"
           "registrar_name").
  vm_compute; discriminate.
Defined.

(** ** The registrant *)

(** C5, as stated, fails on a registrant whose only entry is an empty
    [organization]: neither key yields a usable value, yet the result is the
    empty string, not [None]. *)
Lemma registrant_name_falsy_organization :
  registrant_name Doc.empty_organization = VStr EmptyString
  /\ Spec.registrant_as_specified Doc.empty_organization = VNone
  /\ registrant_name Doc.empty_organization <> VNone.
Proof. repeat split. discriminate. Qed.

(** C5, amended: for a map the result is the value of [name] when that
    value is truthy, and otherwise whatever [organization] holds, unchanged
    ([None] when [organization] is missing or null, so [None] when neither
    key is present); a string is its own result; any other shape gives
    [None]. *)
Theorem registrant_name_cases (info : value) :
  (forall d, info = VDict d -> Py.truthy (Py.get d "name") = true ->
     registrant_name info = Py.get d "name")
  /\ (forall d, info = VDict d -> Py.truthy (Py.get d "name") = false ->
      registrant_name info = Py.get d "organization")
  /\ (forall d, info = VDict d -> Py.lookup d "name" = None ->
      Py.lookup d "organization" = None -> registrant_name info = VNone)
  /\ (forall s, info = VStr s -> registrant_name info = VStr s)
  /\ ((forall d, info <> VDict d) -> (forall s, info <> VStr s) ->
      registrant_name info = VNone)
  /\ registrant_name (VDict [("organization", VStr "Google LLC")])
     = VStr "Google LLC"
  /\ registrant_name (VStr "Jane Doe") = VStr "Jane Doe".
Proof.
  repeat split.
  - intros d -> Hname. unfold registrant_name, Py.or_. now rewrite Hname.
  - intros d -> Hname. unfold registrant_name, Py.or_. now rewrite Hname.
  - intros d -> Hname Horg. unfold registrant_name, Py.or_, Py.get.
    now rewrite Hname, Horg.
  - now intros s ->.
  - intros Hdict Hstr. destruct info as [| | | |s| |d]; try reflexivity.
    + now destruct (Hstr s).
    + now destruct (Hdict d).
Qed.

(** A registrant with an empty [name] falls back to the organization. *)
Lemma registrant_name_cases_witness :
  Py.truthy (Py.get Doc.empty_name "name") = false
  /\ registrant_name (VDict Doc.empty_name) = VStr "Google LLC".
Proof.
  split; [reflexivity|].
  apply (proj1 (proj2 (registrant_name_cases (VDict Doc.empty_name)))
           Doc.empty_name); reflexivity.
Defined.

(** ** The nameservers *)

Lemma process_item_candidate (acc : list string) (item : value) :
  process_item acc item = acc ++ Spec.candidate item.
Proof.
  unfold process_item.
  destruct item as [|b|z|f|s|l|d]; simpl;
    try (destruct (negb _); now rewrite app_nil_r).
  - now rewrite app_nil_r.
  - destruct s; simpl; [now rewrite app_nil_r | reflexivity].
  - destruct d as [|kv d]; simpl.
    + unfold Py.or_, Py.get. simpl. now rewrite app_nil_r.
    + destruct (Py.or_ _ _) as [|b|z|f|n|l|e]; simpl; rewrite ?app_nil_r;
        try reflexivity.
      * now destruct b.
      * now destruct (negb _).
      * now destruct (negb _).
      * destruct n; simpl; [now rewrite app_nil_r | reflexivity].
      * now destruct l.
      * now destruct e.
Qed.

Lemma fold_process_item (items : list value) (acc : list string) :
  fold_left process_item items acc = acc ++ flat_map Spec.candidate items.
Proof.
  revert acc. induction items as [|item rest IH]; intros acc; simpl.
  - now rewrite app_nil_r.
  - now rewrite IH, process_item_candidate, app_assoc.
Qed.

(** The loop of lines 90-114 collects the candidates' hostnames. *)
Lemma nameserver_list_collected (raw : value) :
  nameserver_list raw = Spec.collected raw.
Proof.
  unfold nameserver_list, Spec.collected.
  destruct (Py.truthy raw) eqn:Htruthy.
  - rewrite fold_process_item. simpl. f_equal.
    destruct raw as [| | | | | |d]; try reflexivity.
    simpl. unfold Py.get.
    destruct (Py.lookup d "hostNames") as [[|b|z|f|n|l|e]|]; simpl;
      try reflexivity.
    + now destruct b.
    + now destruct (negb _).
    + now destruct (negb _).
    + now destruct (negb _).
    + now destruct l.
    + now destruct e.
  - destruct raw as [|b|z|f|s|l|d]; try reflexivity.
    + destruct s; [reflexivity | discriminate].
    + destruct l; [reflexivity | discriminate].
    + destruct d; [reflexivity | discriminate].
Qed.

Lemma filter_filter {A : Type} (p q : A -> bool) (l : list A) :
  filter p (filter q l) = filter (fun x => q x && p x) l.
Proof.
  induction l as [|x r IH]; simpl; [reflexivity|].
  destruct (q x); simpl; [destruct (p x)|]; now rewrite IH.
Qed.

Lemma in_seen_cons (y x : string) (seen : list string) :
  in_seen y (x :: seen) = String.eqb x y || in_seen y seen.
Proof. unfold in_seen. simpl. now rewrite String.eqb_sym. Qed.

(** The comprehension with its [seen] set is a stable deduplication of the
    non-empty strings. *)
Lemma unique_from_dedup (l seen : list string) :
  unique_from seen l
  = filter (fun y => negb (in_seen y seen))
      (Spec.dedup (filter Spec.nonempty l)).
Proof.
  revert seen. induction l as [|x r IH]; intros seen; simpl; [reflexivity|].
  unfold Spec.nonempty at 1.
  destruct (PyStr.is_empty x); simpl; [apply IH|].
  destruct (in_seen x seen) eqn:Hseen; simpl.
  - rewrite IH, filter_filter. apply filter_ext_in.
    intros y _. destruct (String.eqb x y) eqn:Hxy; simpl; [|reflexivity].
    apply String.eqb_eq in Hxy. subst y. now rewrite Hseen.
  - f_equal. rewrite IH, !filter_filter. apply filter_ext.
    intros y. now rewrite in_seen_cons, negb_orb.
Qed.

Lemma unique_ns_dedup (raw : value) :
  unique_ns raw = Spec.dedup (filter Spec.nonempty (Spec.collected raw)).
Proof.
  unfold unique_ns. rewrite unique_from_dedup, nameserver_list_collected.
  simpl. apply forallb_filter_id. apply forallb_forall. reflexivity.
Qed.

(** C4, as stated, fails on the list [["NS1.X", " ", "NS2.X"]]: the blank
    entry is trimmed to the empty string, which deduplication alone would
    keep and join; the code drops it. *)
Lemma nameservers_field_drops_blank :
  nameservers_field (VList [VStr "NS1.X"; VStr " "; VStr "NS2.X"])
  = VStr "ns1.x, ns2.x"
  /\ Spec.nameservers_as_specified
       (VList [VStr "NS1.X"; VStr " "; VStr "NS2.X"])
     = VStr "ns1.x, , ns2.x".
Proof. split; reflexivity. Qed.

(** C4, amended: the candidates' hostnames are collected as specified
    (string split on runs of delimiters, list elements, elements of a
    map's own [hostNames] list; each string candidate and each map
    candidate's [name]-or-[hostname] string lowercased and trimmed); empty
    strings and duplicates are then removed, keeping first occurrences in
    order.  The field is [None] when nothing was collected, and is the
    hostnames joined with [", "] whenever at least one hostname is left. *)
Theorem nameservers_field_normalized (raw : value) :
  let hosts := Spec.dedup (filter Spec.nonempty (Spec.collected raw)) in
  nameserver_list raw = Spec.collected raw
  /\ unique_ns raw = hosts
  /\ (Spec.collected raw = [] -> nameservers_field raw = VNone)
  /\ (hosts <> [] -> nameservers_field raw = VStr (PyStr.join ", " hosts))
  /\ nameservers_field (VList [VStr "NS1.X"; VStr "ns1.x"; VStr "NS2.X"])
     = VStr "ns1.x, ns2.x".
Proof.
  intros hosts. repeat split.
  - apply nameserver_list_collected.
  - apply unique_ns_dedup.
  - intros Hnone. unfold nameservers_field.
    now rewrite nameserver_list_collected, Hnone.
  - intros Hhosts. unfold nameservers_field.
    rewrite unique_ns_dedup, nameserver_list_collected.
    destruct (Spec.collected raw) eqn:Hcollected; [|reflexivity].
    now destruct Hhosts.
Qed.

(** The map [{"hostNames": ["NS1.GOOGLE.COM", "NS2.GOOGLE.COM"]}]. *)
Lemma nameservers_field_normalized_witness :
  Spec.dedup (filter Spec.nonempty (Spec.collected
    (VDict [("hostNames", VList [VStr "NS1.GOOGLE.COM"; VStr "NS2.GOOGLE.COM"])])))
  <> []
  /\ nameservers_field
       (VDict [("hostNames", VList [VStr "NS1.GOOGLE.COM"; VStr "NS2.GOOGLE.COM"])])
     = VStr "ns1.google.com, ns2.google.com".
Proof.
  split; [vm_compute; discriminate|].
  apply (proj1 (proj2 (proj2 (proj2 (nameservers_field_normalized
    (VDict [("hostNames",
              VList [VStr "NS1.GOOGLE.COM"; VStr "NS2.GOOGLE.COM"])])))))).
  vm_compute; discriminate.
Defined.

(** ** Splitting what was joined *)

Module StrFacts.

Import PyStr.

Lemma lower_char_idem (c : ascii) : lower_char (lower_char c) = lower_char c.
Proof. destruct c as [[] [] [] [] [] [] [] []]; reflexivity. Qed.

Lemma isspace_lower_char (c : ascii) : isspace (lower_char c) = isspace c.
Proof. destruct c as [[] [] [] [] [] [] [] []]; reflexivity. Qed.

Lemma isspace_delim (c : ascii) : is_delim c = false -> isspace c = false.
Proof.
  unfold is_delim. intros H.
  apply orb_false_elim in H as [H _]. now apply orb_false_elim in H as [_ H].
Qed.

Lemma lower_idem (s : string) : lower (lower s) = lower s.
Proof.
  induction s as [|c r IH]; simpl; [reflexivity|].
  now rewrite lower_char_idem, IH.
Qed.

Lemma lower_lstrip (s : string) : lower (lstrip s) = lstrip (lower s).
Proof.
  induction s as [|c r IH]; simpl; [reflexivity|].
  rewrite isspace_lower_char. now destruct (isspace c).
Qed.

Lemma is_empty_lower (s : string) : is_empty (lower s) = is_empty s.
Proof. now destruct s. Qed.

Lemma lower_rstrip (s : string) : lower (rstrip s) = rstrip (lower s).
Proof.
  induction s as [|c r IH]; simpl; [reflexivity|].
  rewrite isspace_lower_char, <- IH, is_empty_lower.
  now destruct (isspace c && is_empty (rstrip r)).
Qed.

(** What the loop appends is already in lower case. *)
Lemma lower_strip_lower (s : string) :
  lower (strip (lower s)) = strip (lower s).
Proof.
  unfold strip. now rewrite lower_rstrip, lower_lstrip, lower_idem.
Qed.

Lemma strip_delimiter_free (s : string) :
  Spec.delimiter_free s = true -> strip s = s.
Proof.
  intros Hfree. unfold strip.
  assert (Hl : lstrip s = s).
  { destruct s as [|c r]; [reflexivity|]. simpl in *.
    apply andb_prop in Hfree as [Hc _]. apply negb_true_iff in Hc.
    now rewrite (isspace_delim c Hc). }
  rewrite Hl. clear Hl.
  induction s as [|c r IH]; [reflexivity|]. simpl in *.
  apply andb_prop in Hfree as [Hc Hr]. apply negb_true_iff in Hc.
  now rewrite (isspace_delim c Hc), (IH Hr).
Qed.

Lemma append_empty_r (s : string) : (s ++ EmptyString)%string = s.
Proof. induction s as [|c r IH]; simpl; [reflexivity | now rewrite IH]. Qed.

Lemma re_split_cons (s : string) : exists piece pieces, re_split s = piece :: pieces.
Proof.
  induction s as [|c r [p [ps IH]]]; simpl; [now eauto|].
  destruct (is_delim c).
  - destruct r as [|c' r']; [now eauto|].
    destruct (is_delim c'); [now rewrite IH; eauto | now eauto].
  - rewrite IH. now eauto.
Qed.

(** A token without delimiters in front of [s] joins the first piece of
    [s]. *)
Lemma re_split_token (x s : string) :
  Spec.delimiter_free x = true ->
  re_split (x ++ s)
  = match re_split s with
    | piece :: pieces => (x ++ piece)%string :: pieces
    | [] => [x]
    end.
Proof.
  intros Hfree. induction x as [|c r IH]; simpl in *.
  - destruct (re_split_cons s) as [p [ps Hs]]. now rewrite Hs.
  - apply andb_prop in Hfree as [Hc Hr]. apply negb_true_iff in Hc.
    rewrite Hc, (IH Hr).
    destruct (re_split_cons s) as [p [ps Hs]]. now rewrite Hs.
Qed.

(** The separator [", "] in front of a token starts a new piece. *)
Lemma re_split_separator (c : ascii) (s : string) :
  is_delim c = false ->
  re_split (", " ++ String c s) = EmptyString :: re_split (String c s).
Proof.
  intros Hc.
  change (", " ++ String c s)%string
    with (String "," (String " " (String c s))).
  cbn [re_split].
  change (is_delim ",") with true. change (is_delim " ") with true.
  cbn iota. now rewrite Hc.
Qed.

Lemma join_cons_token (x : string) (r : list string) :
  Spec.token x = true ->
  exists c s, is_delim c = false /\ join ", " (x :: r) = String c s.
Proof.
  unfold Spec.token. intros Htok. apply andb_prop in Htok as [Hne Hfree].
  destruct x as [|c x']; [discriminate|]. simpl in Hfree.
  apply andb_prop in Hfree as [Hc _]. apply negb_true_iff in Hc.
  destruct r; simpl; eauto.
Qed.

(** Splitting the joined tokens gives the tokens back. *)
Lemma re_split_join (l : list string) :
  l <> [] -> forallb Spec.token l = true -> re_split (join ", " l) = l.
Proof.
  induction l as [|x r IH]; [congruence|]. intros _ Htok.
  simpl in Htok. apply andb_prop in Htok as [Hx Hr].
  pose proof Hx as Hx'. unfold Spec.token in Hx'.
  apply andb_prop in Hx' as [_ Hfree].
  destruct r as [|y r'].
  - simpl. rewrite <- (append_empty_r x) at 1.
    rewrite (re_split_token x EmptyString Hfree). simpl. now rewrite append_empty_r.
  - change (join ", " (x :: y :: r'))
      with (x ++ ", " ++ join ", " (y :: r'))%string.
    rewrite (re_split_token x _ Hfree).
    simpl in Hr. apply andb_prop in Hr as [Hy Hr'].
    destruct (join_cons_token y r' Hy) as [c [s [Hc Hjoin]]].
    rewrite Hjoin, (re_split_separator c s Hc), <- Hjoin.
    rewrite append_empty_r. f_equal. apply IH; [discriminate|].
    simpl. now rewrite Hy, Hr'.
Qed.

Lemma is_delim_lower_char (c : ascii) : is_delim (lower_char c) = is_delim c.
Proof. destruct c as [[] [] [] [] [] [] [] []]; reflexivity. Qed.

Lemma delimiter_free_lower (s : string) :
  Spec.delimiter_free (lower s) = Spec.delimiter_free s.
Proof.
  induction s as [|c r IH]; simpl; [reflexivity|].
  now rewrite is_delim_lower_char, IH.
Qed.

Lemma delimiter_free_strip (s : string) :
  Spec.delimiter_free s = true -> Spec.delimiter_free (strip s) = true.
Proof. intros Hfree. now rewrite (strip_delimiter_free s Hfree). Qed.

(** The pieces of a split hold no delimiter. *)
Lemma re_split_delimiter_free (s : string) :
  forallb Spec.delimiter_free (re_split s) = true.
Proof.
  induction s as [|c r IH]; [reflexivity|]. simpl.
  destruct (is_delim c) eqn:Hc.
  - destruct r as [|c' r']; [reflexivity|].
    destruct (is_delim c'); [exact IH | exact IH].
  - destruct (re_split r) as [|p ps]; simpl in *; [now rewrite Hc|].
    now rewrite Hc.
Qed.

End StrFacts.

Lemma In_dedup (x : string) (l : list string) : In x (Spec.dedup l) -> In x l.
Proof.
  induction l as [|y r IH]; simpl; [tauto|].
  intros [->|Hin]; [now left|]. right. apply IH.
  now apply filter_In in Hin as [Hin _].
Qed.

Lemma NoDup_dedup (l : list string) : NoDup (Spec.dedup l).
Proof.
  induction l as [|x r IH]; simpl; constructor.
  - intros Hin. apply filter_In in Hin as [_ Hneq].
    now rewrite String.eqb_refl in Hneq.
  - now apply NoDup_filter.
Qed.

Lemma dedup_NoDup (l : list string) : NoDup l -> Spec.dedup l = l.
Proof.
  induction 1 as [|x r Hnotin _ IH]; simpl; [reflexivity|].
  rewrite IH. f_equal. apply forallb_filter_id, forallb_forall.
  intros y Hy. apply negb_true_iff, String.eqb_neq. now intros ->.
Qed.

(** The deduplicated hostnames are a fixed point of the deduplication. *)
Lemma dedup_nonempty_idem (l : list string) :
  let hosts := Spec.dedup (filter Spec.nonempty l) in
  Spec.dedup (filter Spec.nonempty hosts) = hosts.
Proof.
  intros hosts.
  assert (Hne : filter Spec.nonempty hosts = hosts).
  { apply forallb_filter_id, forallb_forall. intros x Hx.
    apply In_dedup in Hx. now apply filter_In in Hx as [_ Hx]. }
  rewrite Hne. apply dedup_NoDup, NoDup_dedup.
Qed.

Lemma candidate_lowered (item : value) (h : string) :
  In h (Spec.candidate item) -> PyStr.lower h = h.
Proof.
  destruct item as [| | | |s| |d]; simpl; try tauto.
  - destruct s as [|c s']; [simpl; tauto|].
    intros [<-|[]]. exact (StrFacts.lower_strip_lower (String c s')).
  - destruct (Py.or_ _ _) as [| | | |n| |]; simpl; try tauto.
    destruct n as [|c n']; [simpl; tauto|].
    intros [<-|[]]. exact (StrFacts.lower_strip_lower (String c n')).
Qed.

Lemma unique_ns_lowered (raw : value) (h : string) :
  In h (unique_ns raw) -> PyStr.lower h = h /\ Spec.nonempty h = true.
Proof.
  rewrite unique_ns_dedup. intros Hin. apply In_dedup in Hin.
  apply filter_In in Hin as [Hin Hne]. split; [|exact Hne].
  unfold Spec.collected in Hin. apply in_flat_map in Hin as [item [_ Hin]].
  now apply candidate_lowered with item.
Qed.

(** Tokens in lower case are collected from a string as they are. *)
Lemma collected_tokens (l : list string) :
  Forall (fun h => PyStr.lower h = h /\ Spec.token h = true) l ->
  flat_map Spec.candidate (map VStr l) = l.
Proof.
  induction 1 as [|h r [Hlow Htok] _ IH]; simpl; [reflexivity|].
  rewrite IH. unfold Spec.token in Htok.
  apply andb_prop in Htok as [Hne Hfree].
  destruct h as [|c h']; [discriminate|].
  now rewrite Hlow, (StrFacts.strip_delimiter_free _ Hfree).
Qed.

(** C6, as stated, fails on the list [["ns1.x ns2.x"]]: its one entry is
    kept whole, so that the joined string is ["ns1.x ns2.x"]; fed back as a
    string it is split into two hostnames. *)
Lemma nameservers_resplit_differs :
  nameservers_field (VList [VStr "ns1.x ns2.x"]) = VStr "ns1.x ns2.x"
  /\ unique_ns (VList [VStr "ns1.x ns2.x"]) = ["ns1.x ns2.x"]
  /\ unique_ns (VStr "ns1.x ns2.x") = ["ns1.x"; "ns2.x"]
  /\ ~ (forall h, In h (unique_ns (VStr "ns1.x ns2.x"))
                  <-> In h (unique_ns (VList [VStr "ns1.x ns2.x"]))).
Proof.
  repeat split.
  intros Hsame. destruct (proj1 (Hsame "ns1.x")) as [Heq|[]].
  - now left.
  - discriminate.
Qed.

(** Every hostname obtained from a string input is free of delimiters. *)
Lemma unique_ns_str_delimiter_free (s : string) :
  forallb Spec.delimiter_free (unique_ns (VStr s)) = true.
Proof.
  apply forallb_forall. intros h Hin.
  rewrite unique_ns_dedup in Hin. apply In_dedup in Hin.
  apply filter_In in Hin as [Hin _].
  unfold Spec.collected in Hin. simpl in Hin.
  apply in_flat_map in Hin as [item [Hitem Hin]].
  apply in_map_iff in Hitem as [piece [<- Hpiece]].
  pose proof (StrFacts.re_split_delimiter_free s) as Hfree.
  rewrite forallb_forall in Hfree. specialize (Hfree piece Hpiece).
  destruct piece as [|c p]; [destruct Hin|].
  destruct Hin as [<-|[]].
  apply StrFacts.delimiter_free_strip.
  now rewrite (StrFacts.delimiter_free_lower (String c p)).
Qed.

(** C6, amended: when no hostname of the result contains a comma or a
    whitespace character, feeding the joined string back as a string gives
    the same hostnames, in the same order, and the same joined string.
    Every result obtained from a string input is of that kind. *)
Theorem nameservers_idempotent (raw : value) (s : string) :
  (forall s0, forallb Spec.delimiter_free (unique_ns (VStr s0)) = true)
  /\ (nameservers_field raw = VStr s ->
      forallb Spec.delimiter_free (unique_ns raw) = true ->
      unique_ns (VStr s) = unique_ns raw
      /\ (unique_ns raw <> [] -> nameservers_field (VStr s) = VStr s)).
Proof.
  split; [exact unique_ns_str_delimiter_free|].
  intros Hfield Hfree.
  assert (Hs : s = PyStr.join ", " (unique_ns raw)).
  { unfold nameservers_field in Hfield.
    destruct (nameserver_list raw); [discriminate | congruence]. }
  assert (Hidem : Spec.dedup (filter Spec.nonempty (unique_ns raw))
                  = unique_ns raw).
  { rewrite unique_ns_dedup. apply dedup_nonempty_idem. }
  destruct (unique_ns raw) as [|h hs] eqn:Hhosts.
  { subst s. split; [reflexivity | congruence]. }
  assert (Htok : Forall (fun x => PyStr.lower x = x /\ Spec.token x = true)
                   (h :: hs)).
  { apply Forall_forall. intros x Hx.
    destruct (unique_ns_lowered raw x) as [Hlow Hne]; [now rewrite Hhosts|].
    split; [exact Hlow|]. unfold Spec.token. rewrite Hne. simpl.
    rewrite forallb_forall in Hfree. now apply Hfree. }
  assert (Hcollected : Spec.collected (VStr s) = h :: hs).
  { unfold Spec.collected. simpl. rewrite Hs, StrFacts.re_split_join.
    - now apply collected_tokens.
    - discriminate.
    - apply forallb_forall. intros x Hx.
      rewrite Forall_forall in Htok. now apply Htok. }
  assert (Hunique : unique_ns (VStr s) = h :: hs).
  { now rewrite unique_ns_dedup, Hcollected. }
  split; [exact Hunique|]. intros _.
  unfold nameservers_field.
  rewrite Hunique, nameserver_list_collected, Hcollected. now rewrite Hs.
Qed.

(** The list [["NS1.X", "ns1.x", "NS2.X"]] gives ["ns1.x, ns2.x"], which
    gives itself. *)
Lemma nameservers_idempotent_witness :
  nameservers_field (VList [VStr "NS1.X"; VStr "ns1.x"; VStr "NS2.X"])
  = VStr "ns1.x, ns2.x"
  /\ forallb Spec.delimiter_free
       (unique_ns (VList [VStr "NS1.X"; VStr "ns1.x"; VStr "NS2.X"])) = true
  /\ unique_ns (VStr "ns1.x, ns2.x") = ["ns1.x"; "ns2.x"].
Proof.
  split; [reflexivity|]. split; [reflexivity|].
  apply (proj1 (proj2 (nameservers_idempotent
    (VList [VStr "NS1.X"; VStr "ns1.x"; VStr "NS2.X"]) "ns1.x, ns2.x")
    eq_refl eq_refl)).
Defined.

(** ** Renaming a key *)

Section Relabel.

Variables old new : string.


Lemma relabel_dict (d : dict) :
  Spec.relabel old new (VDict d) = VDict (Spec.relabel_items old new d).
Proof. reflexivity. Qed.

Lemma is_none_relabel (v : value) :
  Py.is_none (Spec.relabel old new v) = Py.is_none v.
Proof. now destruct v. Qed.

Lemma truthy_relabel (v : value) :
  Py.truthy (Spec.relabel old new v) = Py.truthy v.
Proof. destruct v as [| | | | |l|d]; try reflexivity; now destruct l || now destruct d. Qed.

Lemma or_relabel (a b : value) :
  Py.or_ (Spec.relabel old new a) (Spec.relabel old new b)
  = Spec.relabel old new (Py.or_ a b).
Proof. unfold Py.or_. rewrite truthy_relabel. now destruct (Py.truthy a). Qed.

Lemma lookup_relabel (d : dict) (k : string) :
  k <> old -> k <> new ->
  Py.lookup (Spec.relabel_items old new d) k
  = option_map (Spec.relabel old new) (Py.lookup d k).
Proof.
  intros Hold Hnew. induction d as [|[key v] r IH]; simpl; [reflexivity|].
  rewrite IH. unfold Spec.rename.
  destruct (String.eqb key old) eqn:Hkey.
  - apply String.eqb_eq in Hkey. subst key.
    apply not_eq_sym, String.eqb_neq in Hold, Hnew. now rewrite Hold, Hnew.
  - now destruct (String.eqb key k).
Qed.

Lemma lookup_relabel_old (d : dict) :
  new <> old -> Py.lookup (Spec.relabel_items old new d) old = None.
Proof.
  intros Hneq. induction d as [|[key v] r IH]; simpl; [reflexivity|].
  rewrite IH. unfold Spec.rename.
  destruct (String.eqb key old) eqn:Hkey; [|now rewrite Hkey].
  apply String.eqb_neq in Hneq. now rewrite Hneq.
Qed.

Lemma get_relabel (d : dict) (k : string) :
  k <> old -> k <> new ->
  Py.get (Spec.relabel_items old new d) k = Spec.relabel old new (Py.get d k).
Proof.
  intros Hold Hnew. unfold Py.get. rewrite (lookup_relabel d k Hold Hnew).
  now destruct (Py.lookup d k).
Qed.

Lemma first_not_none_relabel (f g : value -> value) (l : list value) :
  Forall (fun v => g (Spec.relabel old new v) = Spec.relabel old new (f v)) l ->
  Spec.first_not_none (map g (map (Spec.relabel old new) l))
  = Spec.relabel old new (Spec.first_not_none (map f l)).
Proof.
  induction 1 as [|x r Hx _ IH]; simpl; [reflexivity|].
  rewrite Hx, is_none_relabel, IH. now destruct (Py.is_none (f x)).
Qed.

(** The finder does not look at keys other than its target. *)
Lemma find_relabel (t : value) (k : string) :
  k <> old -> k <> new ->
  _find_key_recursively (Spec.relabel old new t) k
  = Spec.relabel old new (_find_key_recursively t k).
Proof.
  intros Hold Hnew.
  induction t as [| | | | |l IH|d IH] using value_ind; try reflexivity.
  - change (Spec.relabel old new (VList l))
      with (VList (map (Spec.relabel old new) l)).
    rewrite !find_list. now apply first_not_none_relabel.
  - rewrite relabel_dict.
    destruct (Py.lookup d k) as [v|] eqn:Hlook.
    + rewrite (find_dict_hit k d v Hlook). apply find_dict_hit.
      now rewrite (lookup_relabel d k Hold Hnew), Hlook.
    + rewrite (find_dict_miss k d Hlook), find_dict_miss.
      * replace (Py.values (Spec.relabel_items old new d))
          with (map (Spec.relabel old new) (Py.values d))
          by (unfold Py.values, Spec.relabel_items; now rewrite !map_map).
        apply first_not_none_relabel. unfold Py.values.
        now rewrite Forall_map.
      * now rewrite (lookup_relabel d k Hold Hnew), Hlook.
Qed.

Lemma get_value_relabel (t : value) (keys : list string) :
  ~ In old keys -> ~ In new keys ->
  _get_value (Spec.relabel old new t) keys
  = Spec.relabel old new (_get_value t keys).
Proof.
  induction keys as [|key rest IH]; simpl; [reflexivity|].
  intros Hold Hnew.
  rewrite find_relabel, is_none_relabel by (intros ->; tauto).
  rewrite IH by tauto.
  now destruct (Py.is_none (_find_key_recursively t key)).
Qed.

Hypothesis name_kept : "name" <> old /\ "name" <> new.
Hypothesis hostname_kept : "hostname" <> old /\ "hostname" <> new.

(** A candidate contributes the same hostname after the renaming. *)
Lemma candidate_relabel (item : value) :
  Spec.candidate (Spec.relabel old new item) = Spec.candidate item.
Proof.
  destruct item as [| | | | | |d]; try reflexivity.
  rewrite relabel_dict. unfold Spec.candidate.
  rewrite !get_relabel, or_relabel by tauto.
  now destruct (Py.or_ (Py.get d "name") (Py.get d "hostname")).
Qed.

Lemma candidates_relabel (l : list value) :
  flat_map Spec.candidate (map (Spec.relabel old new) l)
  = flat_map Spec.candidate l.
Proof.
  induction l as [|x r IH]; simpl; [reflexivity|].
  now rewrite candidate_relabel, IH.
Qed.

End Relabel.

Lemma nameservers_field_collected (raw raw' : value) :
  Spec.collected raw = Spec.collected raw' ->
  nameservers_field raw = nameservers_field raw'.
Proof.
  intros Hsame. unfold nameservers_field.
  now rewrite !unique_ns_dedup, !nameserver_list_collected, Hsame.
Qed.

(** Renaming [hostNames] in a resolved value that does not hold that key
    itself leaves the nameserver field as it is. *)
Lemma nameservers_field_relabel (z : string) (raw : value) :
  ~ In z ["hostNames"; "name"; "hostname"] ->
  (forall d, raw = VDict d -> Py.lookup d "hostNames" = None) ->
  nameservers_field (Spec.relabel "hostNames" z raw) = nameservers_field raw.
Proof.
  intros Hz Hdirect. apply nameservers_field_collected.
  assert (Hname : "name" <> "hostNames" /\ "name" <> z).
  { split; [discriminate | intros <-; simpl in Hz; tauto]. }
  assert (Hhost : "hostname" <> "hostNames" /\ "hostname" <> z).
  { split; [discriminate | intros <-; simpl in Hz; tauto]. }
  destruct raw as [| | | | |l|d]; try reflexivity.
  - apply (candidates_relabel "hostNames" z Hname Hhost).
  - rewrite relabel_dict. unfold Spec.collected, Spec.worklist.
    rewrite lookup_relabel_old, (Hdirect d eq_refl); [reflexivity|].
    intros ->. simpl in Hz. tauto.
Qed.

Lemma parse_nameservers (whois_data : value) :
  Py.lookup (parse_whois_json whois_data) "nameservers"
  = Some (nameservers whois_data).
Proof. reflexivity. Qed.

(** ** Values under stray [hostNames] keys *)

Lemma same_is_none (t t' : value) :
  Spec.same_but_stray t t' -> Py.is_none t = Py.is_none t'.
Proof.
  destruct t; simpl; try (now intros <-); destruct t'; simpl; tauto.
Qed.

Lemma same_truthy (t t' : value) :
  Spec.same_but_stray t t' -> Py.truthy t = Py.truthy t'.
Proof.
  destruct t as [| | | | |l|d]; simpl; try (now intros <-);
    destruct t' as [| | | | |l'|d']; simpl; try tauto.
  - destruct l, l'; simpl; tauto.
  - destruct d, d'; simpl; tauto.
Qed.

Lemma same_none : Spec.same_but_stray VNone VNone.
Proof. reflexivity. Qed.

Lemma alias_free_find (v : value) (k : string) :
  Spec.alias_free v -> In k NAMESERVER_KEYS ->
  _find_key_recursively v k = VNone.
Proof.
  intros Hfree Hk. unfold Spec.alias_free in Hfree.
  rewrite Forall_forall in Hfree.
  apply (proj1 (first_match_found_all k v)), document_order_nil.
  now apply Hfree.
Qed.

Lemma same_lookup (d d' : dict) (k : string) :
  Spec.same_items d d' -> k <> "hostNames" ->
  match Py.lookup d k, Py.lookup d' k with
  | Some v, Some v' => Spec.same_but_stray v v'
  | None, None => True
  | _, _ => False
  end.
Proof.
  intros Hsame Hk. revert d' Hsame.
  induction d as [|[key v] r IH]; intros [|[key' v'] r']; simpl; try tauto.
  intros [[<- Hv] Hr]. destruct (String.eqb key k) eqn:Hkey.
  - apply String.eqb_eq in Hkey. subst key.
    destruct Hv as [Hv|[Hhost _]]; [exact Hv | contradiction].
  - now apply IH.
Qed.

Lemma same_get (d d' : dict) (k : string) :
  Spec.same_items d d' -> k <> "hostNames" ->
  Spec.same_but_stray (Py.get d k) (Py.get d' k).
Proof.
  intros Hsame Hk. pose proof (same_lookup d d' k Hsame Hk) as Hlook.
  unfold Py.get.
  destruct (Py.lookup d k), (Py.lookup d' k); try tauto. exact same_none.
Qed.

Section SameButStray.

Variable k : string.
Hypothesis k_alias : In k NAMESERVER_KEYS.

Lemma same_loop_list (l l' : list value) :
  Forall (Spec.finds_same k) l ->
  Spec.pairwise (fun x x' => Spec.same_but_stray x x') l l' ->
  Spec.same_but_stray
    (Spec.first_not_none (map (fun v => _find_key_recursively v k) l))
    (Spec.first_not_none (map (fun v => _find_key_recursively v k) l')).
Proof.
  intros IH. revert l'.
  induction IH as [|x r Hx _ IHr]; intros [|x' r']; simpl;
    try contradiction; try (intros _; exact same_none).
  intros [Hxx Hrr]. specialize (Hx x' Hxx).
  rewrite <- (same_is_none _ _ Hx).
  destruct (Py.is_none (_find_key_recursively x k)); [now apply IHr | exact Hx].
Qed.

Lemma same_loop_dict (d d' : dict) :
  Forall (fun kv => Spec.finds_same k (snd kv)) d ->
  Spec.same_items d d' ->
  Spec.same_but_stray
    (Spec.first_not_none
       (map (fun v => _find_key_recursively v k) (Py.values d)))
    (Spec.first_not_none
       (map (fun v => _find_key_recursively v k) (Py.values d'))).
Proof.
  intros IH. revert d'.
  induction IH as [|[key x] r Hx _ IHr]; intros [|[key' x'] r']; simpl;
    try contradiction; try (intros _; exact same_none).
  intros [[_ [Hxx|[_ [Hfree Hfree']]]] Hrr].
  - specialize (Hx x' Hxx). simpl in Hx.
    rewrite <- (same_is_none _ _ Hx).
    destruct (Py.is_none (_find_key_recursively x k));
      [now apply IHr | exact Hx].
  - rewrite (alias_free_find x k Hfree k_alias),
      (alias_free_find x' k Hfree' k_alias). simpl. now apply IHr.
Qed.

(** The finder gives related results on related trees. *)
Lemma find_same (t : value) : Spec.finds_same k t.
Proof.
  assert (Hk : k <> "hostNames").
  { intros ->. revert k_alias. unfold NAMESERVER_KEYS. simpl.
    intuition discriminate. }
  induction t as [| | | | |l IH|d IH] using value_ind; intros t' Hsame;
    try (simpl in Hsame; subst t'; exact same_none).
  - destruct t' as [| | | | |l'|]; try contradiction.
    rewrite !find_list. now apply same_loop_list.
  - destruct t' as [| | | | | |d']; try contradiction.
    pose proof (same_lookup d d' k Hsame Hk) as Hlook.
    destruct (Py.lookup d k) as [v|] eqn:Hd,
             (Py.lookup d' k) as [v'|] eqn:Hd'; try contradiction.
    + now rewrite (find_dict_hit k d v Hd), (find_dict_hit k d' v' Hd').
    + rewrite (find_dict_miss k d Hd), (find_dict_miss k d' Hd').
      now apply same_loop_dict.
Qed.

End SameButStray.

Lemma get_value_same (t t' : value) (keys : list string) :
  incl keys NAMESERVER_KEYS -> Spec.same_but_stray t t' ->
  Spec.same_but_stray (_get_value t keys) (_get_value t' keys).
Proof.
  intros Hincl Hsame.
  induction keys as [|key rest IH]; simpl; [exact same_none|].
  assert (Hkey : In key NAMESERVER_KEYS) by (apply Hincl; now left).
  pose proof (find_same key Hkey t t' Hsame) as Hfind.
  rewrite <- (same_is_none _ _ Hfind).
  destruct (Py.is_none (_find_key_recursively t key)); [|exact Hfind].
  apply IH. intros x Hx. apply Hincl. now right.
Qed.

Lemma same_str (t t' : value) :
  Spec.same_but_stray t t' ->
  match t with VStr _ => t' = t | _ => match t' with VStr _ => False | _ => True end end.
Proof.
  destruct t; simpl; try (now intros <-); destruct t'; tauto.
Qed.

Lemma candidate_same (item item' : value) :
  Spec.same_but_stray item item' ->
  Spec.candidate item = Spec.candidate item'.
Proof.
  destruct item as [| | | | |l|d]; try (simpl; now intros <-).
  - destruct item'; simpl; try contradiction. reflexivity.
  - destruct item' as [| | | | | |d']; try (simpl; contradiction).
    intros Hsame. change (Spec.same_items d d') in Hsame.
    pose proof (same_get d d' "name" Hsame ltac:(discriminate)) as Hname.
    pose proof (same_get d d' "hostname" Hsame ltac:(discriminate)) as Hhost.
    assert (Hor : Spec.same_but_stray
                    (Py.or_ (Py.get d "name") (Py.get d "hostname"))
                    (Py.or_ (Py.get d' "name") (Py.get d' "hostname"))).
    { unfold Py.or_. rewrite <- (same_truthy _ _ Hname).
      now destruct (Py.truthy (Py.get d "name")). }
    apply same_str in Hor. unfold Spec.candidate.
    destruct (Py.or_ (Py.get d "name") (Py.get d "hostname"));
      try (now rewrite Hor);
      destruct (Py.or_ (Py.get d' "name") (Py.get d' "hostname"));
      try contradiction; reflexivity.
Qed.

Lemma candidates_same (l l' : list value) :
  Spec.pairwise (fun x x' => Spec.same_but_stray x x') l l' ->
  flat_map Spec.candidate l = flat_map Spec.candidate l'.
Proof.
  revert l'. induction l as [|x r IH]; intros [|x' r']; simpl; try tauto.
  intros [Hx Hr]. now rewrite (candidate_same x x' Hx), (IH r' Hr).
Qed.

Lemma worklist_get (d : dict) :
  Spec.worklist (VDict d)
  = match Py.get d "hostNames" with VList l => l | _ => [] end.
Proof.
  unfold Spec.worklist, Py.get. now destruct (Py.lookup d "hostNames").
Qed.

(** Related resolved values give the same nameserver entry, provided that,
    for maps, the values under their own [hostNames] are related. *)
Lemma nameservers_field_same (raw raw' : value) :
  Spec.same_but_stray raw raw' ->
  (forall d d', raw = VDict d -> raw' = VDict d' ->
     Spec.same_but_stray (Py.get d "hostNames") (Py.get d' "hostNames")) ->
  nameservers_field raw = nameservers_field raw'.
Proof.
  intros Hsame Hown. apply nameservers_field_collected.
  destruct raw as [| | | | |l|d]; simpl in Hsame; try (now subst raw');
    destruct raw' as [| | | | |l'|d']; try contradiction.
  - now apply candidates_same.
  - specialize (Hown d d' eq_refl eq_refl).
    unfold Spec.collected. rewrite !worklist_get.
    destruct (Py.get d "hostNames") as [| | | | |l|]; simpl in Hown;
      try (now rewrite <- Hown);
      destruct (Py.get d' "hostNames") as [| | | | |l'|];
      try contradiction; [|reflexivity].
    now apply candidates_same.
Qed.

(** C7, as stated, fails on [{"hostNames": {"nameservers": ["NS1.X"]}}]:
    the resolved value is the list found below the top-level [hostNames],
    which is therefore no direct child of it, and the entry ["ns1.x"] comes
    out of that [hostNames] value; with [[]] in its place the entry is
    [None]. *)
Lemma stray_hostNames_value_searched :
  _get_value Doc.alias_below_hostnames NAMESERVER_KEYS = VList [VStr "NS1.X"]
  /\ Py.lookup (parse_whois_json Doc.alias_below_hostnames) "nameservers"
     = Some (VStr "ns1.x")
  /\ Py.lookup (parse_whois_json Doc.emptied_hostnames) "nameservers"
     = Some VNone.
Proof. repeat split. Qed.

(** C7, amended: the nameserver entry is computed from the value resolved
    from the nameserver aliases alone, and [hostNames] is looked up in one
    place only, as a key of a resolved map: such a map contributes what
    the value under its own [hostNames] contributes, and nothing else.  A
    value under any other [hostNames] key is never read as a list of
    hostnames; like every value it is only searched for the aliases.  So
    the values under [hostNames] keys that hold no nameserver alias can be
    replaced by any values that hold none, everywhere but at the resolved
    map's own [hostNames], without changing the entry.  [hostNames] is no
    alias: when none of the aliases resolves, the entry is [None]. *)
Theorem hostNames_only_direct (whois_data : value) :
  Py.lookup (parse_whois_json whois_data) "nameservers"
  = Some (nameservers_field (_get_value whois_data NAMESERVER_KEYS))
  /\ (forall d, _get_value whois_data NAMESERVER_KEYS = VDict d ->
      Py.lookup (parse_whois_json whois_data) "nameservers"
      = Some (nameservers_field
                (VDict [("hostNames", Py.get d "hostNames")])))
  /\ (forall other,
      Spec.same_but_stray whois_data other ->
      (forall d d',
         _get_value whois_data NAMESERVER_KEYS = VDict d ->
         _get_value other NAMESERVER_KEYS = VDict d' ->
         Spec.same_but_stray (Py.get d "hostNames") (Py.get d' "hostNames")) ->
      Py.lookup (parse_whois_json other) "nameservers"
      = Py.lookup (parse_whois_json whois_data) "nameservers")
  /\ ~ In "hostNames" NAMESERVER_KEYS
  /\ (_get_value whois_data NAMESERVER_KEYS = VNone ->
      Py.lookup (parse_whois_json whois_data) "nameservers" = Some VNone).
Proof.
  split; [apply parse_nameservers|].
  split; [|split; [|split]].
  - intros d Hd. rewrite parse_nameservers. unfold nameservers.
    rewrite Hd. f_equal. apply nameservers_field_collected.
    unfold Spec.collected. now rewrite !worklist_get.
  - intros other Hsame Hown. rewrite !parse_nameservers. f_equal.
    unfold nameservers. symmetry. apply nameservers_field_same.
    + apply get_value_same; [apply incl_refl | exact Hsame].
    + exact Hown.
  - simpl. intuition discriminate.
  - intros Hnone. rewrite parse_nameservers. unfold nameservers.
    now rewrite Hnone.
Qed.

(** In [{"hostNames": ["NS9.X"], "nameserver_info": {"hostNames":
    ["NS1.X"]}}] the top-level [hostNames] value can be replaced by
    [{"glue": ["NS7.X", "NS8.X"]}]: the entry stays ["ns1.x"]. *)
Lemma hostNames_only_direct_witness :
  Spec.same_but_stray Doc.stray_beside Doc.stray_replaced
  /\ (forall d d',
       _get_value Doc.stray_beside NAMESERVER_KEYS = VDict d ->
       _get_value Doc.stray_replaced NAMESERVER_KEYS = VDict d' ->
       Spec.same_but_stray (Py.get d "hostNames") (Py.get d' "hostNames"))
  /\ Py.lookup (parse_whois_json Doc.stray_replaced) "nameservers"
     = Some (VStr "ns1.x").
Proof.
  assert (Hsame : Spec.same_but_stray Doc.stray_beside Doc.stray_replaced).
  { simpl. repeat split.
    - right. repeat split; repeat (constructor; [reflexivity|]); constructor.
    - left. simpl. repeat split. left. simpl. tauto. }
  assert (Hown : forall d d',
    _get_value Doc.stray_beside NAMESERVER_KEYS = VDict d ->
    _get_value Doc.stray_replaced NAMESERVER_KEYS = VDict d' ->
    Spec.same_but_stray (Py.get d "hostNames") (Py.get d' "hostNames")).
  { intros d d' Hd Hd'. vm_compute in Hd, Hd'.
    injection Hd as <-. injection Hd' as <-. simpl. tauto. }
  split; [exact Hsame|]. split; [exact Hown|].
  exact (proj1 (proj2 (proj2 (hostNames_only_direct Doc.stray_beside)))
           Doc.stray_replaced Hsame Hown).
Defined.

(** ** The record *)

(** C8: the record of the sample document. *)
Theorem parse_markmonitor :
  parse_whois_json Doc.markmonitor
  = [ ("createdDate", VNone); ("updatedDate", VNone); ("expiresDate", VNone);
      ("registrarName", VStr "MarkMonitor Inc."); ("whoisServer", VNone);
      ("registrant", VStr "Google LLC"); ("country", VNone);
      ("countryCode", VNone); ("registrarIANAID", VNone);
      ("nameservers", VStr "ns1.google.com, ns2.google.com") ].
Proof. vm_compute. reflexivity. Qed.

(** C9: each of the eight simple entries holds what the resolver returned
    for its aliases, unchanged; a value that is not a string is stored as it
    is. *)
Theorem simple_fields_identity (whois_data : value) :
  let record := parse_whois_json whois_data in
  let resolved := _get_value whois_data in
  Py.lookup record "createdDate" = Some (resolved CREATED_KEYS)
  /\ Py.lookup record "updatedDate" = Some (resolved UPDATED_KEYS)
  /\ Py.lookup record "expiresDate" = Some (resolved EXPIRES_KEYS)
  /\ Py.lookup record "registrarName" = Some (resolved REGISTRAR_KEYS)
  /\ Py.lookup record "whoisServer" = Some (resolved WHOIS_SERVER_KEYS)
  /\ Py.lookup record "registrarIANAID" = Some (resolved IANA_KEYS)
  /\ Py.lookup record "country" = Some (resolved COUNTRY_KEYS)
  /\ Py.lookup record "countryCode" = Some (resolved COUNTRY_CODE_KEYS)
  /\ Py.lookup (parse_whois_json Doc.nested_registrar) "registrarName"
     = Some (VDict [("id", VInt 292)]).
Proof. repeat split. Qed.



(** ** Further properties of the key finder and the alias resolver *)

Lemma first_not_none_found (f : value -> value) (l : list value) :
  Spec.first_not_none (map f l) <> VNone ->
  exists x, In x l /\ f x = Spec.first_not_none (map f l).
Proof.
  induction l as [|x r IH]; simpl; [congruence|].
  destruct (Py.is_none (f x)) eqn:Hx.
  - intros Hr. destruct (IH Hr) as [y [Hy Heq]]. eauto.
  - intros _. eauto.
Qed.

Lemma lookup_document_order (d : dict) (k : string) (v : value) :
  Py.lookup d k = Some v -> In v (Spec.document_order (VDict d) k).
Proof.
  simpl. induction d as [|[key x] r IH]; simpl; [discriminate|].
  destruct (String.eqb key k).
  - intros [= ->]. now left.
  - intros Hlook. apply in_or_app. right. now apply IH.
Qed.

(** X1: whatever the finder returns, other than [None], is a value bound to
    the target key somewhere in the tree. *)
Theorem find_sound (t : value) (k : string) :
  _find_key_recursively t k <> VNone ->
  In (_find_key_recursively t k) (Spec.document_order t k).
Proof.
  induction t as [| | | | |l IH|d IH] using value_ind;
    try (simpl; congruence).
  - rewrite find_list. intros Hfound.
    destruct (first_not_none_found _ l Hfound) as [x [Hx Heq]].
    rewrite <- Heq in *. simpl. apply in_flat_map. exists x.
    split; [exact Hx|]. rewrite Forall_forall in IH. now apply IH.
  - destruct (Py.lookup d k) as [v|] eqn:Hlook.
    + rewrite (find_dict_hit k d v Hlook). intros _.
      now apply lookup_document_order.
    + rewrite (find_dict_miss k d Hlook). intros Hfound.
      destruct (first_not_none_found _ _ Hfound) as [x [Hx Heq]].
      rewrite <- Heq in *. unfold Py.values in Hx.
      apply in_map_iff in Hx as [[key y] [Hy Hin]]. simpl in Hy. subst y.
      simpl. apply in_flat_map. exists (key, x). split; [exact Hin|].
      apply in_or_app. right. rewrite Forall_forall in IH.
      now apply (IH (key, x)).
Qed.

(** In the sample document the registrar found is a value bound to
    ["registrar"]. *)
Lemma find_sound_witness :
  _find_key_recursively Doc.markmonitor "registrar" <> VNone
  /\ In (VStr "MarkMonitor Inc.")
       (Spec.document_order Doc.markmonitor "registrar").
Proof.
  assert (Hfound : _find_key_recursively Doc.markmonitor "registrar" <> VNone)
    by (vm_compute; discriminate).
  split; [exact Hfound|].
  exact (find_sound Doc.markmonitor "registrar" Hfound).
Defined.

(** X2: searching a list that is the concatenation of two lists is searching
    the first and, only when that gives [None], the second. *)
Theorem find_list_app (l1 l2 : list value) (k : string) :
  _find_key_recursively (VList (l1 ++ l2)) k
  = if Py.is_none (_find_key_recursively (VList l1) k)
    then _find_key_recursively (VList l2) k
    else _find_key_recursively (VList l1) k.
Proof. rewrite !find_list, map_app. apply first_not_none_app. Qed.

(** X3: resolving the concatenation of two alias lists is resolving the
    first and, only when that gives [None], the second. *)
Theorem get_value_app (t : value) (keys1 keys2 : list string) :
  _get_value t (keys1 ++ keys2)
  = if Py.is_none (_get_value t keys1) then _get_value t keys2
    else _get_value t keys1.
Proof. rewrite !get_value_first_not_none, map_app. apply first_not_none_app. Qed.

(** X4: whatever the resolver returns, other than [None], is a value bound
    in the tree to one of the aliases, and every alias before that one gave
    [None]. *)
Theorem get_value_sound (t : value) (keys : list string) :
  _get_value t keys <> VNone ->
  exists before key after,
    keys = before ++ key :: after
    /\ Forall (fun a => _find_key_recursively t a = VNone) before
    /\ _find_key_recursively t key = _get_value t keys
    /\ In (_get_value t keys) (Spec.document_order t key).
Proof.
  induction keys as [|key rest IH]; simpl; [congruence|].
  destruct (Py.is_none (_find_key_recursively t key)) eqn:Hkey.
  - intros Hrest.
    destruct (IH Hrest) as [before [a [after [-> [Hbefore [Ha Hin]]]]]].
    exists (key :: before), a, after. repeat split; try assumption.
    constructor; [|exact Hbefore].
    now destruct (_find_key_recursively t key).
  - intros Hfound. exists [], key, rest. repeat split.
    + constructor.
    + now apply find_sound.
Qed.

(** In [{"registrant": {"id": 7}, "registrant_name": "Jane Doe"}] the
    aliases ["registrar"], ["registrant_name"] resolve to the second one. *)
Lemma get_value_sound_witness :
  _get_value Doc.blocked_registrant ["registrar"; "registrant_name"] <> VNone
  /\ exists before key after,
       ["registrar"; "registrant_name"] = before ++ key :: after
       /\ Forall (fun a =>
                    _find_key_recursively Doc.blocked_registrant a = VNone)
            before
       /\ _find_key_recursively Doc.blocked_registrant key
          = _get_value Doc.blocked_registrant ["registrar"; "registrant_name"]
       /\ In (_get_value Doc.blocked_registrant
                ["registrar"; "registrant_name"])
            (Spec.document_order Doc.blocked_registrant key).
Proof.
  assert (Hfound :
    _get_value Doc.blocked_registrant ["registrar"; "registrant_name"] <> VNone)
    by (vm_compute; discriminate).
  split; [exact Hfound|].
  exact (get_value_sound Doc.blocked_registrant
           ["registrar"; "registrant_name"] Hfound).
Defined.

(** ** Further properties of the record *)

Lemma get_value_none (t : value) (keys : list string) :
  Forall (fun key => Spec.document_order t key = []) keys ->
  _get_value t keys = VNone.
Proof.
  induction 1 as [|key rest Hkey _ IH]; simpl; [reflexivity|].
  apply document_order_nil in Hkey.
  now rewrite (proj1 (first_match_found_all key t) Hkey).
Qed.

(** X5: a document in which none of the alias keys occurs, at any depth,
    gives the record with [None] under each of the ten keys. *)
Theorem parse_no_alias (whois_data : value) :
  Forall (fun key => Spec.document_order whois_data key = []) ALIAS_KEYS ->
  parse_whois_json whois_data = initial_parsed_data.
Proof.
  unfold ALIAS_KEYS. rewrite !Forall_app.
  intros (Hc & Hu & He & Hr & Hw & Hi & Hg & Hy & Hd & Hn).
  unfold parse_whois_json.
  rewrite (get_value_none _ _ Hc), (get_value_none _ _ Hu),
    (get_value_none _ _ He), (get_value_none _ _ Hr),
    (get_value_none _ _ Hw), (get_value_none _ _ Hi),
    (get_value_none _ _ Hg), (get_value_none _ _ Hy),
    (get_value_none _ _ Hd), (get_value_none _ _ Hn).
  reflexivity.
Qed.

(** [{"domain_name": "google.com", "status": ["ok", "locked"]}] holds no
    alias key. *)
Lemma parse_no_alias_witness :
  Forall (fun key => Spec.document_order Doc.no_alias key = []) ALIAS_KEYS
  /\ parse_whois_json Doc.no_alias = initial_parsed_data.
Proof.
  assert (Hnone :
    Forall (fun key => Spec.document_order Doc.no_alias key = []) ALIAS_KEYS).
  { unfold ALIAS_KEYS. repeat (constructor; [reflexivity|]). constructor. }
  split; [exact Hnone | exact (parse_no_alias Doc.no_alias Hnone)].
Defined.

Lemma find_singleton_list (t : value) (k : string) :
  _find_key_recursively (VList [t]) k = _find_key_recursively t k.
Proof. simpl. now destruct (_find_key_recursively t k). Qed.

Lemma find_singleton_dict (z : string) (t : value) (k : string) :
  z <> k ->
  _find_key_recursively (VDict [(z, t)]) k = _find_key_recursively t k.
Proof.
  intros Hz. apply String.eqb_neq in Hz. simpl. rewrite Hz.
  now destruct (_find_key_recursively t k).
Qed.

Lemma get_value_ext (t t' : value) (keys : list string) :
  Forall (fun key => _find_key_recursively t key
                     = _find_key_recursively t' key) keys ->
  _get_value t keys = _get_value t' keys.
Proof.
  induction 1 as [|key rest Hkey _ IH]; simpl; [reflexivity|].
  now rewrite Hkey, IH.
Qed.

(** The record is determined by what the finder returns for the alias
    keys. *)
Lemma parse_ext (t t' : value) :
  Forall (fun key => _find_key_recursively t key
                     = _find_key_recursively t' key) ALIAS_KEYS ->
  parse_whois_json t = parse_whois_json t'.
Proof.
  unfold ALIAS_KEYS. rewrite !Forall_app.
  intros (Hc & Hu & He & Hr & Hw & Hi & Hg & Hy & Hd & Hn).
  unfold parse_whois_json.
  now rewrite (get_value_ext _ _ _ Hc), (get_value_ext _ _ _ Hu),
    (get_value_ext _ _ _ He), (get_value_ext _ _ _ Hr),
    (get_value_ext _ _ _ Hw), (get_value_ext _ _ _ Hi),
    (get_value_ext _ _ _ Hg), (get_value_ext _ _ _ Hy),
    (get_value_ext _ _ _ Hd), (get_value_ext _ _ _ Hn).
Qed.

(** X6: a document wrapped in a one-element list gives the record of the
    document. *)
Theorem parse_singleton_list (whois_data : value) :
  parse_whois_json (VList [whois_data]) = parse_whois_json whois_data.
Proof.
  apply parse_ext, Forall_forall. intros key _. apply find_singleton_list.
Qed.

(** X7: a document wrapped in a map under a single key that is no alias
    gives the record of the document. *)
Theorem parse_envelope (z : string) (whois_data : value) :
  ~ In z ALIAS_KEYS ->
  parse_whois_json (VDict [(z, whois_data)]) = parse_whois_json whois_data.
Proof.
  intros Hz. apply parse_ext, Forall_forall. intros key Hkey.
  apply find_singleton_dict. now intros ->.
Qed.

(** The sample document under the key ["data"]. *)
Lemma parse_envelope_witness :
  ~ In "data" ALIAS_KEYS
  /\ parse_whois_json (VDict [("data", Doc.markmonitor)])
     = parse_whois_json Doc.markmonitor.
Proof.
  assert (Hdata : ~ In "data" ALIAS_KEYS).
  { unfold ALIAS_KEYS. simpl. intuition discriminate. }
  split; [exact Hdata | exact (parse_envelope "data" Doc.markmonitor Hdata)].
Defined.

Lemma get_value_head (t : value) (key : string) (rest : list string) :
  _find_key_recursively t key <> VNone ->
  _get_value t (key :: rest) = _find_key_recursively t key.
Proof. simpl. now destruct (_find_key_recursively t key). Qed.

(** X8: once the key ["registrant"] is found, the later registrant aliases
    are not consulted, whatever the value found: the entry is what the
    registrant branch makes of that value, [None] for a map without [name]
    and [organization] and for anything that is neither a map nor a
    string. *)
Theorem registrant_first_alias_decides (whois_data : value) :
  _find_key_recursively whois_data "registrant" <> VNone ->
  Py.lookup (parse_whois_json whois_data) "registrant"
  = Some (registrant_name (_find_key_recursively whois_data "registrant")).
Proof.
  intros Hfound.
  change (Py.lookup (parse_whois_json whois_data) "registrant")
    with (Some (registrant_name (_get_value whois_data REGISTRANT_KEYS))).
  unfold REGISTRANT_KEYS. now rewrite get_value_head.
Qed.

(** In [{"registrant": {"id": 7}, "registrant_name": "Jane Doe"}] the
    registrant entry is [None]. *)
Lemma registrant_first_alias_decides_witness :
  _find_key_recursively Doc.blocked_registrant "registrant" <> VNone
  /\ Py.lookup (parse_whois_json Doc.blocked_registrant) "registrant"
     = Some VNone.
Proof.
  assert (Hfound :
    _find_key_recursively Doc.blocked_registrant "registrant" <> VNone)
    by (vm_compute; discriminate).
  split; [exact Hfound|].
  exact (registrant_first_alias_decides Doc.blocked_registrant Hfound).
Defined.

(** X9: once the key ["name_servers"] is found, the later nameserver
    aliases are not consulted, whatever the value found: the entry is what
    the nameserver branch makes of that value. *)
Theorem nameservers_first_alias_decides (whois_data : value) :
  _find_key_recursively whois_data "name_servers" <> VNone ->
  Py.lookup (parse_whois_json whois_data) "nameservers"
  = Some (nameservers_field (_find_key_recursively whois_data "name_servers")).
Proof.
  intros Hfound. rewrite parse_nameservers. unfold nameservers, NAMESERVER_KEYS.
  now rewrite get_value_head.
Qed.

(** In [{"name_servers": 5, "nameservers": ["ns1.x"]}] the nameserver entry
    is [None]. *)
Lemma nameservers_first_alias_decides_witness :
  _find_key_recursively Doc.blocked_nameservers "name_servers" <> VNone
  /\ Py.lookup (parse_whois_json Doc.blocked_nameservers) "nameservers"
     = Some VNone.
Proof.
  assert (Hfound :
    _find_key_recursively Doc.blocked_nameservers "name_servers" <> VNone)
    by (vm_compute; discriminate).
  split; [exact Hfound|].
  exact (nameservers_first_alias_decides Doc.blocked_nameservers Hfound).
Defined.

Lemma incl_checked (small big : list string) :
  forallb (fun x => existsb (String.eqb x) big) small = true ->
  incl small big.
Proof.
  intros Hcheck x Hx. rewrite forallb_forall in Hcheck.
  specialize (Hcheck x Hx). apply existsb_exists in Hcheck as [y [Hy Heq]].
  apply String.eqb_eq in Heq. now subst.
Qed.

Section RelabelRecord.

Variables old new : string.
Hypothesis old_unknown : ~ In old KNOWN_KEYS.
Hypothesis new_unknown : ~ In new KNOWN_KEYS.

Lemma unknown_apart (key : string) :
  In key KNOWN_KEYS -> key <> old /\ key <> new.
Proof. intros Hkey. split; intros ->; tauto. Qed.

Lemma unknown_not_in (keys : list string) :
  incl keys KNOWN_KEYS -> ~ In old keys /\ ~ In new keys.
Proof. intros Hincl. split; intros Hin; apply Hincl in Hin; tauto. Qed.

Lemma get_value_relabel_known (t : value) (keys : list string) :
  forallb (fun x => existsb (String.eqb x) KNOWN_KEYS) keys = true ->
  _get_value (Spec.relabel old new t) keys
  = Spec.relabel old new (_get_value t keys).
Proof.
  intros Hcheck.
  destruct (unknown_not_in keys (incl_checked _ _ Hcheck)) as [Ho Hn].
  now apply get_value_relabel.
Qed.

Lemma registrant_name_relabel (info : value) :
  registrant_name (Spec.relabel old new info)
  = Spec.relabel old new (registrant_name info).
Proof.
  destruct info as [| | | | |l|d]; try reflexivity.
  rewrite relabel_dict. unfold registrant_name.
  destruct (unknown_apart "name") as [Hno Hnn]; [simpl; tauto|].
  destruct (unknown_apart "organization") as [Hoo Hon]; [simpl; tauto|].
  now rewrite !get_relabel, or_relabel.
Qed.

Lemma collected_relabel (raw : value) :
  Spec.collected (Spec.relabel old new raw) = Spec.collected raw.
Proof.
  assert (Hname := unknown_apart "name" ltac:(simpl; tauto)).
  assert (Hhost := unknown_apart "hostname" ltac:(simpl; tauto)).
  destruct (unknown_apart "hostNames") as [Hho Hhn]; [simpl; tauto|].
  destruct raw as [| | | | |l|d]; try reflexivity.
  - apply (candidates_relabel old new Hname Hhost).
  - rewrite relabel_dict. unfold Spec.collected, Spec.worklist.
    rewrite (lookup_relabel old new d "hostNames" Hho Hhn).
    destruct (Py.lookup d "hostNames") as [[| | | | |l|]|]; try reflexivity.
    apply (candidates_relabel old new Hname Hhost).
Qed.

Lemma nameservers_field_relabel_unknown (raw : value) :
  nameservers_field (Spec.relabel old new raw)
  = Spec.relabel old new (nameservers_field raw).
Proof.
  rewrite (nameservers_field_collected _ raw (collected_relabel raw)).
  unfold nameservers_field. now destruct (nameserver_list raw).
Qed.

Lemma setitem_relabel_record (d : dict) (key : string) (v : value) :
  Spec.relabel_record old new (Py.setitem d key v)
  = Py.setitem (Spec.relabel_record old new d) key (Spec.relabel old new v).
Proof.
  induction d as [|[k x] r IH]; simpl; [reflexivity|].
  destruct (String.eqb k key); simpl; [reflexivity | now rewrite IH].
Qed.

Lemma parse_relabel_unknown (whois_data : value) :
  parse_whois_json (Spec.relabel old new whois_data)
  = Spec.relabel_record old new (parse_whois_json whois_data).
Proof.
  unfold parse_whois_json.
  rewrite !setitem_relabel_record.
  rewrite !get_value_relabel_known by reflexivity.
  now rewrite registrant_name_relabel, nameservers_field_relabel_unknown.
Qed.

End RelabelRecord.

(** X10: the parser looks at no key other than its aliases and [name],
    [organization], [hostname], [hostNames]: renaming any other key of the
    document, everywhere, to any other such key changes nothing in the
    record but that same renaming inside the values it stores. *)
Theorem parse_blind_to_unknown_keys (old new : string) (whois_data : value) :
  ~ In old KNOWN_KEYS -> ~ In new KNOWN_KEYS ->
  parse_whois_json (Spec.relabel old new whois_data)
  = Spec.relabel_record old new (parse_whois_json whois_data).
Proof. intros Hold Hnew. now apply parse_relabel_unknown. Qed.

(** Renaming ["status"] to ["state"] in
    [{"domain_name": "google.com", "status": ["ok", "locked"]}]. *)
Lemma parse_blind_to_unknown_keys_witness :
  ~ In "status" KNOWN_KEYS /\ ~ In "state" KNOWN_KEYS
  /\ parse_whois_json (Spec.relabel "status" "state" Doc.no_alias)
     = Spec.relabel_record "status" "state" (parse_whois_json Doc.no_alias).
Proof.
  assert (Hstatus : ~ In "status" KNOWN_KEYS).
  { unfold KNOWN_KEYS, ALIAS_KEYS. simpl. intuition discriminate. }
  assert (Hstate : ~ In "state" KNOWN_KEYS).
  { unfold KNOWN_KEYS, ALIAS_KEYS. simpl. intuition discriminate. }
  split; [exact Hstatus|]. split; [exact Hstate|].
  exact (parse_blind_to_unknown_keys "status" "state" Doc.no_alias
           Hstatus Hstate).
Defined.

(** ** Further properties of the nameservers *)

Lemma lstrip_length (s : string) :
  String.length (PyStr.lstrip s) <= String.length s.
Proof.
  induction s as [|c r IH]; simpl; [lia|].
  destruct (PyStr.isspace c); simpl; lia.
Qed.

Lemma lstrip_idem (s : string) :
  PyStr.lstrip (PyStr.lstrip s) = PyStr.lstrip s.
Proof.
  induction s as [|c r IH]; simpl; [reflexivity|].
  destruct (PyStr.isspace c) eqn:Hc; [exact IH|]. simpl. now rewrite Hc.
Qed.

Lemma rstrip_idem (s : string) :
  PyStr.rstrip (PyStr.rstrip s) = PyStr.rstrip s.
Proof.
  induction s as [|c r IH]; simpl; [reflexivity|].
  destruct (PyStr.isspace c && PyStr.is_empty (PyStr.rstrip r)) eqn:Hc;
    [reflexivity|].
  simpl. now rewrite IH, Hc.
Qed.

Lemma lstrip_rstrip_fixed (s : string) :
  PyStr.lstrip s = s -> PyStr.lstrip (PyStr.rstrip s) = PyStr.rstrip s.
Proof.
  destruct s as [|c r]; [reflexivity|]. simpl.
  destruct (PyStr.isspace c) eqn:Hc.
  - intros Hfix. pose proof (lstrip_length r) as Hlen.
    rewrite Hfix in Hlen. simpl in Hlen. lia.
  - intros _. simpl. now rewrite Hc.
Qed.

Lemma strip_idem (s : string) : PyStr.strip (PyStr.strip s) = PyStr.strip s.
Proof.
  unfold PyStr.strip.
  now rewrite (lstrip_rstrip_fixed _ (lstrip_idem s)), rstrip_idem.
Qed.

Lemma candidate_trimmed (item : value) (h : string) :
  In h (Spec.candidate item) -> Spec.trimmed h.
Proof.
  unfold Spec.trimmed.
  destruct item as [| | | |s| |d]; simpl; try tauto.
  - destruct s as [|c s']; [simpl; tauto|].
    intros [<-|[]]. apply strip_idem.
  - destruct (Py.or_ _ _) as [| | | |n| |]; simpl; try tauto.
    destruct n as [|c n']; [simpl; tauto|].
    intros [<-|[]]. apply strip_idem.
Qed.

(** X11: the hostnames that are joined are pairwise different, not empty,
    in lower case and without leading or trailing whitespace, whatever the
    resolved value. *)
Theorem unique_ns_invariant (raw : value) :
  NoDup (unique_ns raw)
  /\ Forall (fun h => h <> EmptyString /\ PyStr.lower h = h /\ Spec.trimmed h)
       (unique_ns raw).
Proof.
  split.
  - rewrite unique_ns_dedup. apply NoDup_dedup.
  - apply Forall_forall. intros h Hin.
    destruct (unique_ns_lowered raw h Hin) as [Hlow Hne].
    split; [now intros -> | split; [exact Hlow|]].
    rewrite unique_ns_dedup in Hin. apply In_dedup in Hin.
    apply filter_In in Hin as [Hin _]. unfold Spec.collected in Hin.
    apply in_flat_map in Hin as [item [_ Hin]].
    now apply candidate_trimmed with item.
Qed.

Lemma re_split_lower (s : string) :
  PyStr.re_split (PyStr.lower s) = map PyStr.lower (PyStr.re_split s).
Proof.
  induction s as [|c r IH]; [reflexivity|].
  cbn [PyStr.lower PyStr.re_split].
  rewrite StrFacts.is_delim_lower_char, IH.
  destruct (PyStr.is_delim c).
  - destruct r as [|c' r']; [reflexivity|].
    cbn [PyStr.lower]. rewrite StrFacts.is_delim_lower_char.
    now destruct (PyStr.is_delim c').
  - now destruct (PyStr.re_split r).
Qed.

Lemma candidates_lower (l : list string) :
  flat_map Spec.candidate (map VStr (map PyStr.lower l))
  = flat_map Spec.candidate (map VStr l).
Proof.
  induction l as [|p r IH]; [reflexivity|].
  cbn [map flat_map]. rewrite IH. f_equal.
  destruct p as [|c p']; [reflexivity|]. simpl.
  now rewrite StrFacts.lower_char_idem, StrFacts.lower_idem.
Qed.

(** X12: the case of the input does not matter: a string, or a list of
    strings, gives the same nameserver entry as its lower-case form. *)
Theorem nameservers_case_insensitive (s : string) (l : list string) :
  nameservers_field (VStr (PyStr.lower s)) = nameservers_field (VStr s)
  /\ nameservers_field (VList (map VStr (map PyStr.lower l)))
     = nameservers_field (VList (map VStr l)).
Proof.
  split; apply nameservers_field_collected; unfold Spec.collected; simpl.
  - rewrite re_split_lower. apply candidates_lower.
  - apply candidates_lower.
Qed.

(** X13: a list of hostnames without commas and whitespace gives the same
    nameserver entry as the one string that joins them with [", "]. *)
Theorem nameservers_list_or_string (l : list string) :
  forallb Spec.token l = true ->
  nameservers_field (VStr (PyStr.join ", " l))
  = nameservers_field (VList (map VStr l)).
Proof.
  intros Htok. apply nameservers_field_collected. unfold Spec.collected.
  destruct l as [|x r]; [reflexivity|].
  cbv beta iota delta [Spec.worklist].
  rewrite StrFacts.re_split_join; [reflexivity | discriminate | exact Htok].
Qed.

(** The hostnames [NS1.X], [ns2.x]. *)
Lemma nameservers_list_or_string_witness :
  forallb Spec.token ["NS1.X"; "ns2.x"] = true
  /\ nameservers_field (VStr "NS1.X, ns2.x")
     = nameservers_field (VList [VStr "NS1.X"; VStr "ns2.x"]).
Proof.
  split; [reflexivity|].
  exact (nameservers_list_or_string ["NS1.X"; "ns2.x"] eq_refl).
Defined.

Lemma re_split_all_delim (s : string) :
  forallb PyStr.is_delim (list_ascii_of_string s) = true ->
  forallb PyStr.is_empty (PyStr.re_split s) = true.
Proof.
  induction s as [|c r IH]; [reflexivity|]. simpl.
  intros Hall. apply andb_prop in Hall as [Hc Hr]. rewrite Hc.
  destruct r as [|c' r']; [reflexivity|].
  simpl in Hr. pose proof Hr as Hr'. apply andb_prop in Hr' as [Hc' _].
  rewrite Hc'. now apply IH.
Qed.

Lemma candidates_empty (l : list string) :
  forallb PyStr.is_empty l = true ->
  flat_map Spec.candidate (map VStr l) = [].
Proof.
  induction l as [|p r IH]; [reflexivity|]. simpl.
  intros Hall. apply andb_prop in Hall as [Hp Hr].
  destruct p; [now apply IH | discriminate].
Qed.

(** X14: a string made of commas and whitespace only gives no nameserver
    entry. *)
Theorem nameservers_only_delimiters (s : string) :
  forallb PyStr.is_delim (list_ascii_of_string s) = true ->
  nameservers_field (VStr s) = VNone.
Proof.
  intros Hall. unfold nameservers_field.
  rewrite nameserver_list_collected. unfold Spec.collected. simpl.
  now rewrite (candidates_empty _ (re_split_all_delim s Hall)).
Qed.

(** The string [" , ,"]. *)
Lemma nameservers_only_delimiters_witness :
  forallb PyStr.is_delim (list_ascii_of_string " , ,") = true
  /\ nameservers_field (VStr " , ,") = VNone.
Proof.
  split; [reflexivity|].
  exact (nameservers_only_delimiters " , ," eq_refl).
Defined.

(** X15: a resolved map gives a nameserver entry only through a list under
    its own [hostNames]: when [hostNames] is missing or holds anything but a
    list, a string of hostnames included, the entry is [None]. *)
Theorem nameservers_map_needs_list (d : dict) :
  (forall l, Py.get d "hostNames" <> VList l) ->
  nameservers_field (VDict d) = VNone.
Proof.
  intros Hnolist. unfold nameservers_field.
  rewrite nameserver_list_collected. unfold Spec.collected, Spec.worklist.
  unfold Py.get in Hnolist.
  destruct (Py.lookup d "hostNames") as [[| | | | |l|]|]; try reflexivity.
  now destruct (Hnolist l).
Qed.

(** The map [{"hostNames": "ns1.x, ns2.x"}]. *)
Lemma nameservers_map_needs_list_witness :
  (forall l, Py.get [("hostNames", VStr "ns1.x, ns2.x")] "hostNames" <> VList l)
  /\ nameservers_field (VDict [("hostNames", VStr "ns1.x, ns2.x")]) = VNone.
Proof.
  assert (Hnolist : forall l,
    Py.get [("hostNames", VStr "ns1.x, ns2.x")] "hostNames" <> VList l)
    by (intros l; vm_compute; discriminate).
  split; [exact Hnolist|].
  exact (nameservers_map_needs_list _ Hnolist).
Defined.

(** What [seen] holds after the comprehension went through [l1]. *)
Lemma unique_from_app (l1 l2 seen : list string) :
  unique_from seen (l1 ++ l2)
  = unique_from seen l1
      ++ unique_from (rev (unique_from seen l1) ++ seen) l2.
Proof.
  revert seen. induction l1 as [|x r IH]; intros seen; simpl; [reflexivity|].
  destruct (negb (PyStr.is_empty x) && negb (in_seen x seen)).
  - simpl. rewrite IH. f_equal. f_equal. now rewrite <- app_assoc.
  - apply IH.
Qed.

Lemma in_seen_app (y : string) (a b : list string) :
  in_seen y (a ++ b) = in_seen y a || in_seen y b.
Proof. apply existsb_app. Qed.

Lemma in_seen_In (y : string) (l : list string) :
  In y l -> in_seen y l = true.
Proof.
  intros Hin. apply existsb_exists. exists y.
  split; [exact Hin | apply String.eqb_refl].
Qed.

Lemma in_unique_from (x : string) (l : list string) :
  In x l -> Spec.nonempty x = true -> In x (unique_from [] l).
Proof.
  rewrite unique_from_dedup. intros Hin Hne.
  rewrite forallb_filter_id by (apply forallb_forall; reflexivity).
  assert (Hfiltered : In x (filter Spec.nonempty l))
    by (apply filter_In; now split).
  clear Hin. induction (filter Spec.nonempty l) as [|y r IH];
    [destruct Hfiltered|]. simpl.
  destruct (String.eqb y x) eqn:Hyx.
  - left. now apply String.eqb_eq.
  - right. destruct Hfiltered as [->|Hin];
      [now rewrite String.eqb_refl in Hyx|].
    apply filter_In. split; [now apply IH | now rewrite Hyx].
Qed.

Lemma unique_from_all_seen (seen l : list string) :
  (forall x, In x l -> Spec.nonempty x = true -> in_seen x seen = true) ->
  unique_from seen l = [].
Proof.
  induction l as [|x r IH]; intros Hseen; simpl; [reflexivity|].
  destruct (PyStr.is_empty x) eqn:Hx; simpl.
  - apply IH. intros y Hy. apply Hseen. now right.
  - rewrite (Hseen x); [|now left | unfold Spec.nonempty; now rewrite Hx].
    simpl. apply IH. intros y Hy. apply Hseen. now right.
Qed.

(** X16: items appended to a list of nameservers change nothing when every
    hostname they contribute is contributed by the list already. *)
Theorem nameservers_repeats_absorbed (l l' : list value) :
  incl (nameserver_list (VList l')) (nameserver_list (VList l)) ->
  nameservers_field (VList (l ++ l')) = nameservers_field (VList l).
Proof.
  rewrite !nameserver_list_collected. unfold Spec.collected. simpl.
  intros Hincl.
  assert (Hlist : nameserver_list (VList (l ++ l'))
                  = flat_map Spec.candidate l ++ flat_map Spec.candidate l').
  { rewrite nameserver_list_collected. unfold Spec.collected. simpl.
    apply flat_map_app. }
  assert (Hunique : unique_ns (VList (l ++ l')) = unique_ns (VList l)).
  { unfold unique_ns. rewrite Hlist, unique_from_app.
    rewrite nameserver_list_collected. unfold Spec.collected. simpl.
    rewrite (unique_from_all_seen
               (rev (unique_from [] (flat_map Spec.candidate l)) ++ [])
               (flat_map Spec.candidate l')); [apply app_nil_r|].
    intros x Hx Hne. rewrite in_seen_app. apply orb_true_intro. left.
    apply in_seen_In. rewrite <- in_rev.
    apply in_unique_from; [now apply Hincl | exact Hne]. }
  unfold nameservers_field. rewrite Hunique, Hlist.
  rewrite (nameserver_list_collected (VList l)). unfold Spec.collected. simpl.
  destruct (flat_map Spec.candidate l) as [|h hs] eqn:Hl; [|reflexivity].
  destruct (flat_map Spec.candidate l') as [|h' hs']; [reflexivity|].
  destruct (Hincl h'). now left.
Qed.

(** The list [["NS1.X", "ns2.x"]] followed by [[" ns1.x ", "NS2.X"]]. *)
Lemma nameservers_repeats_absorbed_witness :
  incl (nameserver_list (VList [VStr " ns1.x "; VStr "NS2.X"]))
       (nameserver_list (VList [VStr "NS1.X"; VStr "ns2.x"]))
  /\ nameservers_field
       (VList [VStr "NS1.X"; VStr "ns2.x"; VStr " ns1.x "; VStr "NS2.X"])
     = VStr "ns1.x, ns2.x".
Proof.
  assert (Hincl :
    incl (nameserver_list (VList [VStr " ns1.x "; VStr "NS2.X"]))
         (nameserver_list (VList [VStr "NS1.X"; VStr "ns2.x"])))
    by (vm_compute; tauto).
  split; [exact Hincl|].
  exact (nameservers_repeats_absorbed [VStr "NS1.X"; VStr "ns2.x"]
           [VStr " ns1.x "; VStr "NS2.X"] Hincl).
Defined.

(** X17: in a list of nameservers, a map whose only entry is a string under
    [hostname], or under [name], counts as that string. *)
Theorem nameservers_map_items (l : list string) :
  nameservers_field (VList (map (fun s => VDict [("hostname", VStr s)]) l))
  = nameservers_field (VList (map VStr l))
  /\ nameservers_field (VList (map (fun s => VDict [("name", VStr s)]) l))
     = nameservers_field (VList (map VStr l)).
Proof.
  split; apply nameservers_field_collected; unfold Spec.collected; simpl;
    induction l as [|s r IH]; simpl; try reflexivity;
    rewrite IH; now destruct s.
Qed.

(** X18: in a list of nameservers, a map whose [name] is truthy but not a
    string is skipped, even when it has a usable [hostname]. *)
Theorem nameservers_name_shadows_hostname
  (d : dict) (before after : list value) :
  Py.truthy (Py.get d "name") = true ->
  (forall n, Py.get d "name" <> VStr n) ->
  nameservers_field (VList (before ++ VDict d :: after))
  = nameservers_field (VList (before ++ after)).
Proof.
  intros Htruthy Hnostr. apply nameservers_field_collected.
  unfold Spec.collected. simpl. rewrite !flat_map_app. simpl.
  unfold Py.or_. rewrite Htruthy.
  destruct (Py.get d "name") as [| | | |n| |]; try reflexivity.
  now destruct (Hnostr n).
Qed.

(** The item [{"name": 7, "hostname": "ns1.x"}] in front of ["ns2.x"]. *)
Lemma nameservers_name_shadows_hostname_witness :
  Py.truthy (Py.get [("name", VInt 7); ("hostname", VStr "ns1.x")] "name")
  = true
  /\ (forall n,
       Py.get [("name", VInt 7); ("hostname", VStr "ns1.x")] "name" <> VStr n)
  /\ nameservers_field
       (VList [VDict [("name", VInt 7); ("hostname", VStr "ns1.x")];
               VStr "ns2.x"])
     = VStr "ns2.x".
Proof.
  assert (Hnostr : forall n,
    Py.get [("name", VInt 7); ("hostname", VStr "ns1.x")] "name" <> VStr n)
    by (intros n; vm_compute; discriminate).
  split; [reflexivity|]. split; [exact Hnostr|].
  exact (nameservers_name_shadows_hostname
           [("name", VInt 7); ("hostname", VStr "ns1.x")] [] [VStr "ns2.x"]
           eq_refl Hnostr).
Defined.
